(** * auth-middleware: token decoding and role guards

    A shallow embedding of the NestJS mock authentication middleware
    ([JwtParserService], [AuthGuard], [RequireRolesGuard],
    [RequireAllRolesGuard], [UserClaimsService] and the [User] parameter
    decorator) together with the properties its specification states.

    Conventions of the embedding:
    - a JavaScript string is the list of its UTF-16 code units;
    - a JavaScript number is the rational it denotes (IEEE-754 rounding
      and the non-finite values are outside the model; JSON text never
      denotes NaN);
    - [undefined] is [None], so a property read has type [option JsValue];
    - a method that mutates the request, writes to a logger or throws is a
      computation in the monad [M]: it maps a [World] to the [World] after
      the call and a [Completion], so a mutation made before a throw stays
      visible, as in JavaScript;
    - the clock does not advance during a call;
    - log events keep their level, logger name and message; the metadata
      object passed next to the message is not modelled, and neither are
      the [url] and [method] of the request, which only occur there. *)

From Stdlib Require Import ZArith NArith QArith Qabs Qround String Ascii Lia.
From stdpp Require Import gmap list option.

Set Default Proof Using "Type".
#[local] Set Warnings "-register-all".

(** ** The JavaScript fragment the middleware relies on *)

Module JS.

(** Strings are sequences of UTF-16 code units. *)
Abbreviation jsstring := (list N).

(** A string literal of the source (ASCII only) as a JavaScript string. *)
Definition js (s : string) : jsstring :=
  List.map N_of_ascii (list_ascii_of_string s).

Definition chr (s : string) : N :=
  match s with
  | String a _ => N_of_ascii a
  | EmptyString => 0%N
  end.

(** The double quote, for literals that contain one. *)
Definition dquote : jsstring := [34%N].

(** [s === t] on strings. *)
Definition string_eqb (s t : jsstring) : bool := bool_decide (s = t).

(** ECMAScript WhiteSpace and LineTerminator code points, the ones
    [String.prototype.trim] strips. *)
Definition isWhiteSpace (c : N) : bool :=
  ((9 <=? c) && (c <=? 13) || (c =? 32) || (c =? 160) || (c =? 5760)
   || (8192 <=? c) && (c <=? 8202) || (c =? 8232) || (c =? 8233)
   || (c =? 8239) || (c =? 8287) || (c =? 12288) || (c =? 65279))%N.

Fixpoint trimStart (s : jsstring) : jsstring :=
  match s with
  | c :: s' => if isWhiteSpace c then trimStart s' else s
  | [] => []
  end.

Definition trimEnd (s : jsstring) : jsstring := rev (trimStart (rev s)).

(** [s.trim()] *)
Definition trim (s : jsstring) : jsstring := trimEnd (trimStart s).

(** [s.startsWith(p)] *)
Fixpoint startsWith (s p : jsstring) : bool :=
  match p, s with
  | [], _ => true
  | a :: p', b :: s' => (a =? b)%N && startsWith s' p'
  | _ :: _, [] => false
  end.

(** [s.substring(start)] for [0 <= start]. *)
Definition substring (s : jsstring) (start : nat) : jsstring := drop start s.

(** [s.split(sep)] for a one-character separator: one more segment than
    there are separators, so the empty string splits to one empty
    segment. *)
Fixpoint split (s : jsstring) (sep : N) : list jsstring :=
  match s with
  | [] => [[]]
  | c :: s' =>
      if (c =? sep)%N then [] :: split s' sep
      else match split s' sep with
           | seg :: segs => (c :: seg) :: segs
           | [] => [[c]]
           end
  end.

(** [s.replace(/c/g, d)] for single characters [c] and [d]. *)
Definition replaceAll (s : jsstring) (c d : N) : jsstring :=
  List.map (fun x => if (x =? c)%N then d else x) s.

(** [s.padEnd(targetLength, c)] for a one-character filler. *)
Definition padEnd (s : jsstring) (targetLength : nat) (c : N) : jsstring :=
  s ++ repeat c (targetLength - length s).

(** [xs.join(sep)] *)
Fixpoint join (xs : list jsstring) (sep : jsstring) : jsstring :=
  match xs with
  | [] => []
  | [x] => x
  | x :: xs' => x ++ sep ++ join xs' sep
  end.

(** [xs.includes(x)] on an array of strings. *)
Definition includes (xs : list jsstring) (x : jsstring) : bool :=
  existsb (string_eqb x) xs.

(** [xs.some(p)], [xs.every(p)], [xs.filter(p)] *)
Definition some {A} (xs : list A) (p : A -> bool) : bool := existsb p xs.
Definition every {A} (xs : list A) (p : A -> bool) : bool := forallb p xs.
Definition filter {A} (xs : list A) (p : A -> bool) : list A := List.filter p xs.

(** Values that [JSON.parse] can produce. *)
Inductive JsValue : Type :=
| JNull
| JBool (b : bool)
| JNumber (q : Q)
| JString (s : jsstring)
| JArray (elements : list JsValue)
| JObject (properties : gmap jsstring JsValue).

(** [typeof v] *)
Definition typeof (v : option JsValue) : string :=
  match v with
  | None => "undefined"
  | Some JNull => "object"
  | Some (JBool _) => "boolean"
  | Some (JNumber _) => "number"
  | Some (JString _) => "string"
  | Some (JArray _) => "object"
  | Some (JObject _) => "object"
  end.

(** ToBoolean: what [!v] and [if (v)] test. *)
Definition ToBoolean (v : option JsValue) : bool :=
  match v with
  | None => false
  | Some JNull => false
  | Some (JBool b) => b
  | Some (JNumber q) => negb (Qeq_bool q 0)
  | Some (JString s) => negb (string_eqb s [])
  | Some (JArray _) => true
  | Some (JObject _) => true
  end.

(** ToBoolean of a value that is a string or [undefined]. *)
Definition isTruthyString (v : option jsstring) : bool :=
  match v with
  | None => false
  | Some s => negb (string_eqb s [])
  end.

(** [v === undefined] *)
Definition isUndefined (v : option JsValue) : bool :=
  match v with
  | None => true
  | Some _ => false
  end.

(** [Array.isArray(v)] *)
Definition isArray (v : option JsValue) : bool :=
  match v with
  | Some (JArray _) => true
  | _ => false
  end.

(** The property read [v.name] for the five names the parser reads
    ([sub], [email], [roles], [exp], [iat]). On an object it is the own
    property; neither [Object.prototype] nor [Array.prototype] defines
    any of the five, and none is an array index or [length], so the
    read of an array yields [undefined]. *)
Definition getProp (v : JsValue) (name : jsstring) : option JsValue :=
  match v with
  | JObject properties => properties !! name
  | _ => None
  end.

(** The casts [v as string], [v as number] and the use of an array
    whose elements passed the [typeof r === 'string'] test as a
    [string[]]. *)
Definition asString (v : option JsValue) : jsstring :=
  match v with
  | Some (JString s) => s
  | _ => []
  end.

Definition asNumber (v : option JsValue) : Q :=
  match v with
  | Some (JNumber q) => q
  | _ => 0
  end.

Definition asArray (v : option JsValue) : list JsValue :=
  match v with
  | Some (JArray elements) => elements
  | _ => []
  end.

(** [Math.floor(x / y)] on integers, for [0 < y]. *)
Definition floorDiv (x y : Z) : Z := (x / y)%Z.

(** [x < y] on numbers. *)
Definition lt (x y : Q) : bool := negb (Qle_bool y x).

(** TimeClip of ECMA-262: the time value of [new Date(t)], or [None]
    for NaN (an Invalid Date) when [t] is more than 8.64e15 ms away
    from the epoch. *)
Definition truncate (t : Q) : Z :=
  if Qle_bool 0 t then Qfloor t else Qceiling t.

Definition TimeClip (t : Q) : option Z :=
  if Qle_bool (Qabs t) (inject_Z 8640000000000000) then Some (truncate t)
  else None.

(** [new Date(t).toISOString()] throws a RangeError on an Invalid Date:
    [None] stands for that throw. The formatted text only ever reaches
    log metadata, so the successful call returns the time value it
    would format. *)
Definition Date_toISOString (t : Q) : option Z := TimeClip t.

End JS.

Import JS.
Close Scope Q_scope.
Open Scope nat_scope.

(** The built-ins whose results the parser cannot predict from its own
    text: [Buffer.from(s, 'base64')], [buf.toString('utf-8')] and
    [JSON.parse(text)]. [None] stands for a throw. The properties below
    hold for every runtime; [Reference.runtime] further down is the one
    of Node, whose two decoders never throw. *)
Class Runtime := {
  Buffer_from_base64 : jsstring -> option (list Byte.byte);
  Buffer_toString_utf8 : list Byte.byte -> option jsstring;
  JSON_parse : jsstring -> option JsValue;
}.

(** ** Data model *)

(** models/user-claims.interface.ts *)
Record UserClaims := {
  sub : jsstring;
  email : jsstring;
  roles : list jsstring;
  exp : option Q;
  iat : option Q;
}.

(** models/auth-error.interface.ts *)
Record AuthError := {
  statusCode : Z;
  error : jsstring;
  message : jsstring;
}.

(** What a [throw] carries: the two exceptions of the package, or an
    error raised by a built-in (named by its constructor). *)
Inductive Exception :=
| InvalidTokenException (message : jsstring)
| InsufficientPermissionsException (message : jsstring)
| NativeError (name : string).

Module HttpStatus.
Definition UNAUTHORIZED : Z := 401.
Definition FORBIDDEN : Z := 403.
End HttpStatus.

(** [exception.getResponse()] for the two [HttpException] subclasses. *)
Definition getResponse (e : Exception) : option AuthError :=
  match e with
  | InvalidTokenException message =>
      Some {| statusCode := HttpStatus.UNAUTHORIZED;
              error := js "INVALID_TOKEN";
              message := message |}
  | InsufficientPermissionsException message =>
      Some {| statusCode := HttpStatus.FORBIDDEN;
              error := js "INSUFFICIENT_PERMISSIONS";
              message := message |}
  | NativeError _ => None
  end.

(** The part of the Express request the guards touch (types/express.d.ts
    adds [user]). *)
Record IncomingHttpHeaders := {
  authorization : option jsstring;
}.

Record Request := {
  headers : option IncomingHttpHeaders;
  user : option UserClaims;
}.

Inductive LogLevel := LOG | ERROR | WARN | DEBUG.

Record LogEvent := {
  level : LogLevel;
  context : string;
  text : jsstring;
}.

(** The mutable state a call can read or change: the request object of
    the current execution context, the clock behind [Date.now()] (in
    milliseconds) and what the loggers have written, oldest first. *)
Record World := {
  request : Request;
  clock : Z;
  logged : list LogEvent;
}.

(** ** Computations *)

Inductive Completion (A : Type) :=
| Normal (a : A)
| Throw (e : Exception).
Arguments Normal {A} a.
Arguments Throw {A} e.

Definition M (A : Type) : Type := World -> World * Completion A.

#[global] Instance M_ret : MRet M := fun A a w => (w, Normal a).

#[global] Instance M_bind : MBind M := fun A B f m w =>
  match m w with
  | (w', Normal a) => f a w'
  | (w', Throw e) => (w', Throw e)
  end.

Definition throw {A} (e : Exception) : M A := fun w => (w, Throw e).

(** [try { body } catch (error) { handler }] *)
Definition tryCatch {A} (body : M A) (handler : Exception -> M A) : M A :=
  fun w =>
    match body w with
    | (w', Normal a) => (w', Normal a)
    | (w', Throw e) => handler e w'
    end.

(** [if (c) { body }] *)
Definition when (c : bool) (body : M unit) : M unit :=
  if c then body else mret tt.

(** A call of a built-in that throws the error called [name]. *)
Definition builtin {A} (name : string) (r : option A) : M A :=
  match r with
  | Some a => mret a
  | None => throw (NativeError name)
  end.

Definition Date_now : M Z := fun w => (w, Normal (clock w)).

Module Logger.
Definition write (l : LogLevel) (name : string) (text : jsstring) : M unit := fun w =>
  ({| request := request w;
      clock := clock w;
      logged := logged w ++ [{| level := l; context := name; text := text |}] |},
   Normal tt).
Definition log := write LOG.
Definition error := write ERROR.
Definition warn := write WARN.
Definition debug := write DEBUG.
End Logger.

(** ** services/jwt-parser.service.ts *)

Module JwtParserService.
Section WithRuntime.
Context `{Runtime}.

Definition logger : string := "JwtParserService".

Definition parseToken (token : jsstring) : M UserClaims :=
  (* FR-001: Validate token has exactly 3 parts *)
  let parts := split token (chr ".") in
  when (negb (length parts =? 3)) (
    Logger.warn logger (js "Token validation failed: invalid format (expected 3 parts)");;
    throw (InvalidTokenException
             (js "JWT token must have exactly 3 parts separated by dots")));;
  (* FR-002: Decode base64url-encoded payload (middle part) *)
  let payload := nth 1 parts [] in
  decodedPayload ← tryCatch (
    let base64 := replaceAll (replaceAll payload (chr "-") (chr "+")) (chr "_") (chr "/") in
    let padded := padEnd base64 (length base64 + (4 - length base64 mod 4) mod 4) (chr "=") in
    bytes ← builtin "Error" (Buffer_from_base64 padded);
    builtin "Error" (Buffer_toString_utf8 bytes)
  ) (fun error =>
    Logger.warn logger (js "Token validation failed: invalid base64 encoding");;
    throw (InvalidTokenException (js "JWT payload is not valid base64url encoding")));
  (* Parse JSON payload *)
  parsedClaims ← tryCatch (
    builtin "SyntaxError" (JSON_parse decodedPayload)
  ) (fun error =>
    Logger.warn logger (js "Token validation failed: invalid JSON payload");;
    throw (InvalidTokenException (js "JWT payload is not valid JSON")));
  (* Type guard - ensure claims is an object *)
  when (negb (ToBoolean (Some parsedClaims))
        || negb (String.eqb (typeof (Some parsedClaims)) "object")) (
    Logger.warn logger (js "Token validation failed: payload is not an object");;
    throw (InvalidTokenException (js "JWT payload must be an object")));;
  let claims := parsedClaims in
  let claims_sub := getProp claims (js "sub") in
  let claims_email := getProp claims (js "email") in
  let claims_roles := getProp claims (js "roles") in
  let claims_exp := getProp claims (js "exp") in
  let claims_iat := getProp claims (js "iat") in
  (* FR-003: Validate required claims (sub, email) *)
  when (negb (ToBoolean claims_sub)
        || negb (String.eqb (typeof claims_sub) "string")
        || string_eqb (trim (asString claims_sub)) []) (
    Logger.warn logger (js "Token validation failed: missing or invalid " ++ dquote ++ js "sub" ++ dquote ++ js " claim");;
    throw (InvalidTokenException (js "JWT token must contain a valid " ++ dquote ++ js "sub" ++ dquote ++ js " claim")));;
  when (negb (ToBoolean claims_email)
        || negb (String.eqb (typeof claims_email) "string")
        || string_eqb (trim (asString claims_email)) []) (
    Logger.warn logger (js "Token validation failed: missing or invalid " ++ dquote ++ js "email" ++ dquote ++ js " claim");;
    throw (InvalidTokenException (js "JWT token must contain a valid " ++ dquote ++ js "email" ++ dquote ++ js " claim")));;
  (* FR-014: Handle missing or invalid roles claim (default to empty array) *)
  roles ←
    (if negb (isUndefined claims_roles) then
       if isArray claims_roles then
         (* Validate all elements are strings *)
         if every (asArray claims_roles)
              (fun r => String.eqb (typeof (Some r)) "string")
         then mret (List.map (fun r => asString (Some r)) (asArray claims_roles))
         else
           Logger.warn logger (js "Token contains invalid roles claim (non-string elements), defaulting to empty array");;
           mret []
       else
         Logger.warn logger (js "Token contains invalid roles claim (not an array), defaulting to empty array");;
         mret []
     else mret []);
  (* FR-013: Check token expiration but accept expired tokens with warning *)
  when (negb (isUndefined claims_exp)) (
    ms ← Date_now;
    let now := floorDiv ms 1000 in
    when (String.eqb (typeof claims_exp) "number"
          && lt (asNumber claims_exp) (inject_Z now)) (
      expiredDate ← builtin "RangeError"
                      (Date_toISOString (asNumber claims_exp * inject_Z 1000)%Q);
      Logger.warn logger (js "Token is expired but accepted in mock mode")));;
  let userClaims :=
    {| sub := asString claims_sub;
       email := asString claims_email;
       roles := roles;
       exp := if String.eqb (typeof claims_exp) "number"
              then Some (asNumber claims_exp) else None;
       iat := if String.eqb (typeof claims_iat) "number"
              then Some (asNumber claims_iat) else None |} in
  Logger.debug logger (js "Token parsed successfully");;
  mret userClaims.

End WithRuntime.
End JwtParserService.

(** ** The framework objects the guards receive *)

(** Route metadata as [SetMetadata(key, roles)] leaves it on a handler or
    on a controller class. *)
Abbreviation Metadata := (gmap string (list jsstring)).

Record ExecutionContext := {
  getHandler : Metadata;
  getClass : Metadata;
}.

(** [context.switchToHttp().getRequest()]: the request object itself, so
    an assignment to one of its fields is seen by every later reader. *)
Definition getRequest (context : ExecutionContext) : M Request :=
  fun w => (w, Normal (request w)).

(** [request.user = userClaims] *)
Definition setRequestUser (userClaims : UserClaims) : M unit := fun w =>
  ({| request := {| headers := headers (request w); user := Some userClaims |};
      clock := clock w;
      logged := logged w |},
   Normal tt).

Module Reflector.
(** [reflector.getAllAndOverride(key, targets)]: the metadata of the
    first target that defines the key. *)
Fixpoint getAllAndOverride (key : string) (targets : list Metadata)
  : option (list jsstring) :=
  match targets with
  | [] => None
  | target :: targets' =>
      match target !! key with
      | Some result => Some result
      | None => getAllAndOverride key targets'
      end
  end.
End Reflector.

(** decorators/roles.decorator.ts and
    decorators/require-all-roles.decorator.ts *)
Definition ROLES_KEY : string := "roles".
Definition ALL_ROLES_KEY : string := "all_roles".

Definition SetMetadata (key : string) (value : list jsstring) (target : Metadata)
  : Metadata := <[key := value]> target.

Definition Roles (roles : list jsstring) : Metadata -> Metadata :=
  SetMetadata ROLES_KEY roles.

Definition RequireAllRoles (roles : list jsstring) : Metadata -> Metadata :=
  SetMetadata ALL_ROLES_KEY roles.

(** ** guards/auth.guard.ts *)

Module AuthGuard.
Section WithRuntime.
Context `{Runtime}.

Definition logger : string := "AuthGuard".

Definition canActivate (context : ExecutionContext) : M bool :=
  request ← getRequest context;
  (* FR-006: Extract token from Authorization header *)
  let authHeader := headers request ≫= authorization in
  when (negb (isTruthyString authHeader)) (
    Logger.warn logger (js "Authentication failed: missing Authorization header");;
    throw (InvalidTokenException (js "Missing Authorization header")));;
  let authHeader := default [] authHeader in
  (* Extract Bearer token *)
  let bearerPrefix := js "Bearer " in
  when (negb (startsWith authHeader bearerPrefix)) (
    Logger.warn logger (js "Authentication failed: invalid Authorization header format");;
    throw (InvalidTokenException (js "Authorization header must use Bearer scheme")));;
  let token := trim (substring authHeader (length bearerPrefix)) in
  when (string_eqb token []) (
    Logger.warn logger (js "Authentication failed: empty token");;
    throw (InvalidTokenException (js "Bearer token is empty")));;
  (* FR-004: Parse token and extract user claims *)
  userClaims ← tryCatch (
    JwtParserService.parseToken token
  ) (fun error =>
    (* JwtParserService already logs the specific error, just re-throw *)
    Logger.warn logger (js "Authentication failed: token parsing error");;
    throw error);
  (* FR-004: Attach user claims to request *)
  setRequestUser userClaims;;
  (* Log successful authentication *)
  Logger.log logger (js "Authentication successful");;
  mret true.

End WithRuntime.
End AuthGuard.

(** ** guards/require-roles.guard.ts *)

Module RequireRolesGuard.

Definition logger : string := "RequireRolesGuard".

Definition canActivate (context : ExecutionContext) : M bool :=
  (* FR-007: Get required roles from route metadata *)
  let requiredRoles :=
    Reflector.getAllAndOverride ROLES_KEY [getHandler context; getClass context] in
  match requiredRoles with
  | None =>
      (* If no roles are required, allow access *)
      mret true
  | Some requiredRoles =>
  if length requiredRoles =? 0 then
    (* Edge case: Log warning when @Roles() is used with no arguments *)
    request ← getRequest context;
    Logger.warn logger (js "RequireRolesGuard used with empty roles array");;
    mret true
  else
  request ← getRequest context;
  match user request with
  | None =>
      (* User should be authenticated by AuthGuard before this guard runs *)
      Logger.error logger (js "RequireRolesGuard called without authenticated user");;
      throw (InsufficientPermissionsException
               (js "User must be authenticated to check roles"))
  | Some user =>
  (* FR-007: Check if user has at least one required role (any-of semantics) *)
  (* FR-012: Role comparison is case-sensitive *)
  let hasRequiredRole := some requiredRoles (fun role => includes (roles user) role) in
  when (negb hasRequiredRole) (
    (* FR-009, FR-012: Throw 403 with required roles in message *)
    let message := js "User lacks required role. Required one of: ["
                   ++ join requiredRoles (js ", ") ++ js "]" in
    Logger.warn logger (js "Authorization failed: insufficient roles");;
    throw (InsufficientPermissionsException message));;
  (* Log successful authorization *)
  Logger.log logger (js "Authorization successful");;
  mret true
  end
  end.

End RequireRolesGuard.

(** ** guards/require-all-roles.guard.ts *)

Module RequireAllRolesGuard.

Definition logger : string := "RequireAllRolesGuard".

Definition canActivate (context : ExecutionContext) : M bool :=
  (* FR-008: Get required roles from route metadata *)
  let requiredRoles :=
    Reflector.getAllAndOverride ALL_ROLES_KEY [getHandler context; getClass context] in
  match requiredRoles with
  | None =>
      (* If no roles are required, allow access *)
      mret true
  | Some requiredRoles =>
  if length requiredRoles =? 0 then
    (* Edge case: Log warning when @RequireAllRoles() is used with no arguments *)
    request ← getRequest context;
    Logger.warn logger (js "RequireAllRolesGuard used with empty roles array");;
    mret true
  else
  request ← getRequest context;
  match user request with
  | None =>
      (* User should be authenticated by AuthGuard before this guard runs *)
      Logger.error logger (js "RequireAllRolesGuard called without authenticated user");;
      throw (InsufficientPermissionsException
               (js "User must be authenticated to check roles"))
  | Some user =>
  (* FR-008: Check if user has ALL required roles (all-of semantics) *)
  (* FR-012: Role comparison is case-sensitive *)
  let missingRoles :=
    filter requiredRoles (fun role => negb (includes (roles user) role)) in
  when (0 <? length missingRoles) (
    (* FR-009, FR-012: Throw 403 with missing roles in message *)
    let message := js "User lacks required roles. Missing: ["
                   ++ join missingRoles (js ", ") ++ js "]" in
    Logger.warn logger (js "Authorization failed: missing required roles");;
    throw (InsufficientPermissionsException message));;
  (* Log successful authorization *)
  Logger.log logger (js "Authorization successful (all-of)");;
  mret true
  end
  end.

End RequireAllRolesGuard.

(** ** services/user-claims.service.ts *)

Module UserClaimsService.
(** [request.user || null]; [None] is [null]. *)
Definition getUserClaims (request : Request) : option UserClaims :=
  match user request with
  | Some claims => Some claims
  | None => None
  end.
End UserClaimsService.

Definition GetUserClaims (request : Request) : option UserClaims :=
  match user request with
  | Some claims => Some claims
  | None => None
  end.

(** ** decorators/user.decorator.ts *)

(** [keyof UserClaims] *)
Inductive UserClaimsKey := key_sub | key_email | key_roles | key_exp | key_iat.

(** What the decorator hands to the handler: the whole record, one of its
    properties, or [undefined]. *)
Inductive UserParam :=
| PUndefined
| PClaims (claims : UserClaims)
| PString (s : jsstring)
| PStrings (xs : list jsstring)
| PNumber (q : Q).

(** [user[data]] *)
Definition getClaim (claims : UserClaims) (data : UserClaimsKey) : UserParam :=
  match data with
  | key_sub => PString (sub claims)
  | key_email => PString (email claims)
  | key_roles => PStrings (roles claims)
  | key_exp => from_option PNumber PUndefined (exp claims)
  | key_iat => from_option PNumber PUndefined (iat claims)
  end.

Definition User (data : option UserClaimsKey) (ctx : ExecutionContext) : M UserParam :=
  request ← getRequest ctx;
  let user := user request in
  match data with
  | Some data =>
      (* If a specific property is requested, return just that property *)
      mret (from_option (fun user => getClaim user data) PUndefined user)
  | None =>
      (* Otherwise return the full user claims object *)
      mret (from_option PClaims PUndefined user)
  end.

(** ** A runtime that computes

    The three built-ins as Node has them. [Buffer.from(s, 'base64')] and
    [buf.toString('utf-8')] do not validate what they are given and do
    not throw: the first skips the characters outside the base64
    alphabets, the second puts U+FFFD where the bytes are not UTF-8.
    [JSON.parse] follows ECMA-404 and throws on any other text; a
    numeral is kept as the rational it denotes. It is used to run the
    middleware on concrete tokens. *)

Module Reference.

Definition isChar (c : N) (s : string) : bool := (c =? chr s)%N.
Definition isQuote (c : N) : bool := (c =? 34)%N.
Definition between (lo : string) (c : N) (hi : string) : bool :=
  ((chr lo <=? c) && (c <=? chr hi))%N.

(** *** base64

    The decoder reads the low eight bits of each code unit. A character
    of the standard or of the URL-safe alphabet stands for its six bits,
    [=] ends the reading, and every other character is skipped. Four
    characters give three bytes; two or three characters left at the end
    give one or two bytes, and a single one gives none. *)

Definition sextet (c : N) : option N :=
  if between "A" c "Z" then Some (c - 65)%N
  else if between "a" c "z" then Some (c - 97 + 26)%N
  else if between "0" c "9" then Some (c - 48 + 52)%N
  else if isChar c "+" || isChar c "-" then Some 62%N
  else if isChar c "/" || isChar c "_" then Some 63%N
  else None.

Fixpoint sextets (s : list N) : list N :=
  match s with
  | [] => []
  | c :: s' =>
      let c := (c mod 256)%N in
      if isChar c "=" then []
      else match sextet c with
           | Some v => v :: sextets s'
           | None => sextets s'
           end
  end.

Fixpoint octets (vs : list N) : list N :=
  match vs with
  | a :: b :: c :: d :: rest =>
      (a * 4 + b / 16)%N :: ((b mod 16) * 16 + c / 4)%N
      :: ((c mod 4) * 64 + d)%N :: octets rest
  | [a; b; c] => [(a * 4 + b / 16)%N; ((b mod 16) * 16 + c / 4)%N]
  | [a; b] => [(a * 4 + b / 16)%N]
  | _ => []
  end.

Definition to_byte (n : N) : Byte.byte := default Byte.x00 (Byte.of_N n).

Definition from_base64 (s : jsstring) : option (list Byte.byte) :=
  Some (List.map to_byte (octets (sextets s))).

(** *** UTF-8 to UTF-16

    The decoder of the Encoding Standard: a sequence that is not the
    UTF-8 form of a code point (a stray continuation byte, an overlong
    form, a surrogate, a value above U+10FFFF, a sequence cut short) is
    replaced by U+FFFD, one for each maximal part of it, and decoding
    goes on with the byte that did not fit. *)

Definition replacement : N := 65533.

(** The bytes still expected after a lead byte, the bits read so far,
    and the range the next byte must be in. *)
Record Pending := {
  needed : nat;
  point : N;
  lower : N;
  upper : N;
}.

Definition lead (b : N) : N + Pending :=
  if (b <? 128)%N then inl b
  else if ((194 <=? b) && (b <=? 223))%N then
    inr {| needed := 1; point := (b - 192)%N; lower := 128; upper := 191 |}
  else if ((224 <=? b) && (b <=? 239))%N then
    inr {| needed := 2; point := (b - 224)%N;
           lower := if (b =? 224)%N then 160%N else 128%N;
           upper := if (b =? 237)%N then 159%N else 191%N |}
  else if ((240 <=? b) && (b <=? 244))%N then
    inr {| needed := 3; point := (b - 240)%N;
           lower := if (b =? 240)%N then 144%N else 128%N;
           upper := if (b =? 244)%N then 143%N else 191%N |}
  else inl replacement.

Fixpoint utf8_code_points (pending : option Pending) (bs : list N) : list N :=
  match bs with
  | [] => match pending with Some _ => [replacement] | None => [] end
  | b :: bs' =>
      let start :=
        match lead b with
        | inl cp => cp :: utf8_code_points None bs'
        | inr p => utf8_code_points (Some p) bs'
        end in
      match pending with
      | None => start
      | Some p =>
          if ((lower p <=? b) && (b <=? upper p))%N then
            let cp := (point p * 64 + (b - 128))%N in
            match needed p with
            | S (S n) =>
                utf8_code_points
                  (Some {| needed := S n; point := cp;
                           lower := 128; upper := 191 |}) bs'
            | _ => cp :: utf8_code_points None bs'
            end
          else replacement :: start
      end
  end.

Definition utf16_units (cp : N) : list N :=
  if (cp <? 65536)%N then [cp]
  else [(55296 + (cp - 65536) / 1024)%N; (56320 + (cp - 65536) mod 1024)%N].

Definition toString_utf8 (bytes : list Byte.byte) : option jsstring :=
  Some (List.concat
          (List.map utf16_units
             (utf8_code_points None (List.map Byte.to_N bytes)))).

(** *** JSON *)

Definition json_ws (c : N) : bool :=
  ((c =? 32) || (c =? 9) || (c =? 10) || (c =? 13))%N.

Fixpoint skip_ws (s : list N) : list N :=
  match s with
  | c :: s' => if json_ws c then skip_ws s' else s
  | [] => []
  end.

Definition digit (c : N) : option N :=
  if between "0" c "9" then Some (c - 48)%N else None.

Definition hex_digit (c : N) : option N :=
  if between "0" c "9" then Some (c - 48)%N
  else if between "a" c "f" then Some (c - 87)%N
  else if between "A" c "F" then Some (c - 55)%N
  else None.

(** The characters after an opening quote, up to the closing one. *)
Fixpoint string_tail (s : list N) : option (jsstring * list N) :=
  match s with
  | [] => None
  | c :: s1 =>
      if isQuote c then Some ([], s1)
      else if isChar c "\" then
        match s1 with
        | e :: s2 =>
            let simple (u : N) :=
              '(t, r) ← string_tail s2; Some (u :: t, r) in
            if isQuote e then simple 34%N
            else if isChar e "\" then simple 92%N
            else if isChar e "/" then simple 47%N
            else if isChar e "b" then simple 8%N
            else if isChar e "f" then simple 12%N
            else if isChar e "n" then simple 10%N
            else if isChar e "r" then simple 13%N
            else if isChar e "t" then simple 9%N
            else if isChar e "u" then
              match s2 with
              | h1 :: h2 :: h3 :: h4 :: s6 =>
                  d1 ← hex_digit h1; d2 ← hex_digit h2;
                  d3 ← hex_digit h3; d4 ← hex_digit h4;
                  '(t, r) ← string_tail s6;
                  Some ((d1 * 4096 + d2 * 256 + d3 * 16 + d4)%N :: t, r)
              | _ => None
              end
            else None
        | [] => None
        end
      else if (c <? 32)%N then None
      else '(t, r) ← string_tail s1; Some (c :: t, r)
  end.

(** A maximal run of decimal digits, most significant first. *)
Fixpoint digits (s : list N) : list N * list N :=
  match s with
  | c :: s' =>
      match digit c with
      | Some d => let '(ds, r) := digits s' in (d :: ds, r)
      | None => ([], s)
      end
  | [] => ([], [])
  end.

Definition decimal (ds : list N) : Z :=
  fold_left (fun acc d => acc * 10 + Z.of_N d)%Z ds 0%Z.

(** [mantissa * 10 ^ e] *)
Definition scale (mantissa e : Z) : Q :=
  match e with
  | Zneg p => Qmake mantissa (10 ^ p)%positive
  | _ => inject_Z (mantissa * 10 ^ e)%Z
  end.

Definition number (s : list N) : option (Q * list N) :=
  let '(negative, s0) :=
    match s with
    | c :: s' => if isChar c "-" then (true, s') else (false, s)
    | [] => (false, s)
    end in
  let '(int, s1) := digits s0 in
  match int with
  | [] => None
  | d :: ds =>
      if (d =? 0)%N && negb (length ds =? 0) then None
      else
        frac_r ←
          match s1 with
          | c :: s' =>
              if isChar c "." then
                let '(fs, r) := digits s' in
                if length fs =? 0 then None else Some (fs, r)
              else Some ([], s1)
          | [] => Some ([], s1)
          end;
        let '(frac, s2) := frac_r in
        exp_r ←
          match s2 with
          | c :: s' =>
              if isChar c "e" || isChar c "E" then
                let '(sign, s'') :=
                  match s' with
                  | x :: t => if isChar x "-" then ((-1)%Z, t)
                              else if isChar x "+" then (1%Z, t) else (1%Z, s')
                  | [] => (1%Z, s')
                  end in
                let '(es, r) := digits s'' in
                if length es =? 0 then None else Some ((sign * decimal es)%Z, r)
              else Some (0%Z, s2)
          | [] => Some (0%Z, s2)
          end;
        let '(e, s3) := exp_r in
        let mantissa := decimal (int ++ frac) in
        let mantissa := if negative then (- mantissa)%Z else mantissa in
        Some (scale mantissa (e - Z.of_nat (length frac))%Z, s3)
  end.

Definition literal (word : string) (v : JsValue) (s : list N)
  : option (JsValue * list N) :=
  if startsWith s (js word) then Some (v, drop (String.length word) s) else None.

Fixpoint value (fuel : nat) (s : list N) {struct fuel} : option (JsValue * list N) :=
  match fuel with
  | 0 => None
  | S fuel' =>
      match skip_ws s with
      | [] => None
      | c :: s' =>
          if isChar c "n" then literal "null" JNull (c :: s')
          else if isChar c "t" then literal "true" (JBool true) (c :: s')
          else if isChar c "f" then literal "false" (JBool false) (c :: s')
          else if isQuote c then
            '(t, r) ← string_tail s'; Some (JString t, r)
          else if isChar c "[" then
            match skip_ws s' with
            | x :: r => if isChar x "]" then Some (JArray [], r)
                        else elements fuel' s' []
            | [] => None
            end
          else if isChar c "{" then
            match skip_ws s' with
            | x :: r => if isChar x "}" then Some (JObject ∅, r)
                        else members fuel' s' ∅
            | [] => None
            end
          else '(q, r) ← number (c :: s'); Some (JNumber q, r)
      end
  end
with elements (fuel : nat) (s : list N) (acc : list JsValue) {struct fuel}
  : option (JsValue * list N) :=
  match fuel with
  | 0 => None
  | S fuel' =>
      '(v, r) ← value fuel' s;
      match skip_ws r with
      | x :: r' =>
          if isChar x "," then elements fuel' r' (acc ++ [v])
          else if isChar x "]" then Some (JArray (acc ++ [v]), r')
          else None
      | [] => None
      end
  end
with members (fuel : nat) (s : list N) (acc : gmap jsstring JsValue) {struct fuel}
  : option (JsValue * list N) :=
  match fuel with
  | 0 => None
  | S fuel' =>
      match skip_ws s with
      | q :: s1 =>
          if isQuote q then
            '(k, s2) ← string_tail s1;
            match skip_ws s2 with
            | colon :: s3 =>
                if isChar colon ":" then
                  '(v, r) ← value fuel' s3;
                  match skip_ws r with
                  | x :: r' =>
                      if isChar x "," then members fuel' r' (<[k := v]> acc)
                      else if isChar x "}" then Some (JObject (<[k := v]> acc), r')
                      else None
                  | [] => None
                  end
                else None
            | [] => None
            end
          else None
      | [] => None
      end
  end.

Definition parse (text : jsstring) : option JsValue :=
  '(v, r) ← value (2 * length text + 2) text;
  match skip_ws r with
  | [] => Some v
  | _ :: _ => None
  end.

#[export] Instance runtime : Runtime := {|
  Buffer_from_base64 := from_base64;
  Buffer_toString_utf8 := toString_utf8;
  JSON_parse := parse;
|}.

End Reference.

(** ** Vocabulary of the properties *)

(** What a call completes with, leaving the world aside. *)
Definition outcome {A} (r : World * Completion A) : Completion A := r.2.

(** The current Unix time in seconds, [Math.floor(Date.now() / 1000)]. *)
Definition now (w : World) : Z := floorDiv (clock w) 1000.

(** The text [parseToken] hands to [Buffer.from(_, 'base64')] for a
    payload segment, and the text it reads back. *)
Definition standardBase64 (payload : jsstring) : jsstring :=
  let base64 := replaceAll (replaceAll payload (chr "-") (chr "+")) (chr "_") (chr "/") in
  padEnd base64 (length base64 + (4 - length base64 mod 4) mod 4) (chr "=").

Definition decodePayload `{Runtime} (payload : jsstring) : option jsstring :=
  Buffer_from_base64 (standardBase64 payload) ≫= Buffer_toString_utf8.

(** The messages of the [throw] statements of the parser and of the role
    guards. *)
Module Message.
Definition structure : jsstring :=
  js "JWT token must have exactly 3 parts separated by dots".
Definition encoding : jsstring :=
  js "JWT payload is not valid base64url encoding".
Definition not_json : jsstring := js "JWT payload is not valid JSON".
Definition not_object : jsstring := js "JWT payload must be an object".
Definition missing_sub : jsstring :=
  js "JWT token must contain a valid " ++ dquote ++ js "sub" ++ dquote ++ js " claim".
Definition missing_email : jsstring :=
  js "JWT token must contain a valid " ++ dquote ++ js "email" ++ dquote ++ js " claim".
Definition not_authenticated : jsstring :=
  js "User must be authenticated to check roles".
Definition lacks_any (required : list jsstring) : jsstring :=
  js "User lacks required role. Required one of: ["
  ++ join required (js ", ") ++ js "]".
Definition lacks_all (missing : list jsstring) : jsstring :=
  js "User lacks required roles. Missing: ["
  ++ join missing (js ", ") ++ js "]".
End Message.

(** A pure summary of what [parseToken] does once the payload has been
    parsed to [v]; [parseToken_parsed] below proves that the code
    completes as [parsedOutcome] says. The tests are written as in the
    source. *)
Definition invalidString (v : option JsValue) : bool :=
  negb (ToBoolean v) || negb (String.eqb (typeof v) "string")
  || string_eqb (trim (asString v)) [].

Definition normalizedRoles (v : option JsValue) : list jsstring :=
  if negb (isUndefined v) then
    if isArray v then
      if every (asArray v) (fun r => String.eqb (typeof (Some r)) "string")
      then List.map (fun r => asString (Some r)) (asArray v)
      else []
    else []
  else [].

Definition numeric (v : option JsValue) : option Q :=
  if String.eqb (typeof v) "number" then Some (asNumber v) else None.

Definition isSome {A} (o : option A) : bool :=
  match o with
  | Some _ => true
  | None => false
  end.

(** The expiry warning is due and its date cannot be formatted. *)
Definition expiryUnprintable (nowSeconds : Z) (v : option JsValue) : bool :=
  negb (isUndefined v)
  && (String.eqb (typeof v) "number" && lt (asNumber v) (inject_Z nowSeconds))
  && negb (isSome (Date_toISOString (asNumber v * inject_Z 1000)%Q)).

Definition claimsOf (v : JsValue) : UserClaims :=
  {| sub := asString (getProp v (js "sub"));
     email := asString (getProp v (js "email"));
     roles := normalizedRoles (getProp v (js "roles"));
     exp := numeric (getProp v (js "exp"));
     iat := numeric (getProp v (js "iat")) |}.

Definition parsedOutcome (nowSeconds : Z) (v : JsValue) : Completion UserClaims :=
  if negb (ToBoolean (Some v)) || negb (String.eqb (typeof (Some v)) "object")
  then Throw (InvalidTokenException Message.not_object)
  else if invalidString (getProp v (js "sub"))
  then Throw (InvalidTokenException Message.missing_sub)
  else if invalidString (getProp v (js "email"))
  then Throw (InvalidTokenException Message.missing_email)
  else if expiryUnprintable nowSeconds (getProp v (js "exp"))
  then Throw (NativeError "RangeError")
  else Normal (claimsOf v).

(** A computation that leaves the request and the clock as they are: it
    may only write to the logs. *)
Definition readOnly {A} (m : M A) : Prop :=
  forall w, request (m w).1 = request w /\ clock (m w).1 = clock w.

(** ** Sample inputs *)

Module Sample.

(** A request that has not been authenticated yet, at a time when the
    clock reads 2023-11-14T22:13:20Z. *)
Definition incoming (authorization : option jsstring) : World :=
  {| request := {| headers := Some {| authorization := authorization |};
                   user := None |};
     clock := 1700000000000;
     logged := [] |}.

Definition anonymous : World := incoming None.

Definition authenticated (claims : UserClaims) : World :=
  {| request := {| headers := None; user := Some claims |};
     clock := 1700000000000;
     logged := [] |}.

(** Tokens are made of the header segment of the unit tests (the JSON
    text of alg HS256, typ JWT), a payload segment, and the signature
    segment of the unit tests. *)
Definition header : string := "eyJhbGciOiJIUzI1NiIsInR5cCI6IkpXVCJ9".
Definition signature : string := "mock-signature".
Definition token (payload : string) : jsstring :=
  js (header ++ "." ++ payload ++ "." ++ signature)%string.

(** sub user-123, email test@example.com, roles [admin, user],
    exp 2000000000, iat 1700000000 *)
Definition valid : jsstring :=
  token "eyJzdWIiOiJ1c2VyLTEyMyIsImVtYWlsIjoidGVzdEBleGFtcGxlLmNvbSIsInJvbGVzIjpbImFkbWluIiwidXNlciJdLCJleHAiOjIwMDAwMDAwMDAsImlhdCI6MTcwMDAwMDAwMH0".

(** sub user-123, email test@example.com *)
Definition without_roles : jsstring :=
  token "eyJzdWIiOiJ1c2VyLTEyMyIsImVtYWlsIjoidGVzdEBleGFtcGxlLmNvbSJ9".

(** sub user-123, email test@example.com, roles [admin, 7] *)
Definition mixed_roles_payload : string :=
  "eyJzdWIiOiJ1c2VyLTEyMyIsImVtYWlsIjoidGVzdEBleGFtcGxlLmNvbSIsInJvbGVzIjpbImFkbWluIiw3XX0".
Definition mixed_roles : jsstring := token mixed_roles_payload.

(** sub user-123, email test@example.com, roles [user], exp 1000 *)
Definition expired : jsstring :=
  token "eyJzdWIiOiJ1c2VyLTEyMyIsImVtYWlsIjoidGVzdEBleGFtcGxlLmNvbSIsInJvbGVzIjpbInVzZXIiXSwiZXhwIjoxMDAwfQ".

(** sub user-123, email test@example.com, exp -8640000000001: one
    second more than 8.64e12 seconds before the epoch *)
Definition ancient_payload : string :=
  "eyJzdWIiOiJ1c2VyLTEyMyIsImVtYWlsIjoidGVzdEBleGFtcGxlLmNvbSIsImV4cCI6LTg2NDAwMDAwMDAwMDF9".
Definition ancient : jsstring := token ancient_payload.

(** the empty array, two characters of JSON text *)
Definition array : jsstring := token "W10".

(** the text null *)
Definition null : jsstring := token "bnVsbA".

(** [!] is not in the base64 alphabet *)
Definition garbled : jsstring := token "!".

(** the payload segment of [without_roles] after a [!] *)
Definition tainted : jsstring :=
  token "!eyJzdWIiOiJ1c2VyLTEyMyIsImVtYWlsIjoidGVzdEBleGFtcGxlLmNvbSJ9".

Definition user123 : UserClaims :=
  {| sub := js "user-123";
     email := js "test@example.com";
     roles := [js "admin"; js "user"];
     exp := Some (inject_Z 2000000000);
     iat := Some (inject_Z 1700000000) |}.

Definition with_roles (roles : list jsstring) : UserClaims :=
  {| sub := js "user-123"; email := js "test@example.com";
     roles := roles; exp := None; iat := None |}.

(** A route whose handler carries the given decorator. *)
Definition route (decorator : Metadata -> Metadata) : ExecutionContext :=
  {| getHandler := decorator ∅; getClass := ∅ |}.

End Sample.

(** ** Guards in sequence

    [UseGuards(g1, g2, ...)] makes the framework call the guards of a
    route in the order given, on the same execution context; the call of
    the handler follows only when every guard has returned [true]. This
    is [GuardsConsumer.tryActivate] of the framework for guards that
    answer synchronously: a guard that returns [false] ends the loop, a
    guard that throws ends the call. *)

Module GuardsConsumer.
Fixpoint tryActivate (guards : list (ExecutionContext -> M bool))
    (context : ExecutionContext) : M bool :=
  match guards with
  | [] => mret true
  | guard :: guards' =>
      result ← guard context;
      if result : bool then tryActivate guards' context else (mret false : M bool)
  end.
End GuardsConsumer.

(** The example controller that comes with the tests: the guards and the
    decorators of its protected routes, and the property its
    [User(...)] parameter asks for. The controller class carries no role
    metadata. *)
Module ExampleController.
Section WithRuntime.
Context `{Runtime}.

Record Route := {
  useGuards : list (ExecutionContext -> M bool);
  metadata : ExecutionContext;
  userParam : option UserClaimsKey;
}.

(** [@Get('protected') @UseGuards(AuthGuard)] *)
Definition getProtected : Route :=
  {| useGuards := [AuthGuard.canActivate];
     metadata := {| getHandler := ∅; getClass := ∅ |};
     userParam := None |}.

(** [@Get('admin/dashboard') @UseGuards(AuthGuard, RequireRolesGuard)
    @Roles('admin', 'moderator')] *)
Definition getAdminDashboard : Route :=
  {| useGuards := [AuthGuard.canActivate; RequireRolesGuard.canActivate];
     metadata := {| getHandler := Roles [js "admin"; js "moderator"] ∅;
                   getClass := ∅ |};
     userParam := None |}.

(** [@Delete('admin/critical') @UseGuards(AuthGuard, RequireAllRolesGuard)
    @RequireAllRoles('admin', 'superuser')] *)
Definition criticalOperation : Route :=
  {| useGuards := [AuthGuard.canActivate; RequireAllRolesGuard.canActivate];
     metadata := {| getHandler := RequireAllRoles [js "admin"; js "superuser"] ∅;
                   getClass := ∅ |};
     userParam := None |}.

(** [@Get('profile/email') @UseGuards(AuthGuard)], parameter
    [@User('email')] *)
Definition getEmail : Route :=
  {| useGuards := [AuthGuard.canActivate];
     metadata := {| getHandler := ∅; getClass := ∅ |};
     userParam := Some key_email |}.

(** [@Get('profile/roles') @UseGuards(AuthGuard)], parameter
    [@User('roles')] *)
Definition getRoles : Route :=
  {| useGuards := [AuthGuard.canActivate];
     metadata := {| getHandler := ∅; getClass := ∅ |};
     userParam := Some key_roles |}.

End WithRuntime.
End ExampleController.

(** ** Running the model

    The unit tests of the package, and the acceptance scenarios of its
    implementation summary. *)

Section UnitTests.
Import Reference Sample JwtParserService.

Example parses_a_valid_token :
  outcome (parseToken valid anonymous) = Normal user123.
Proof. vm_compute. reflexivity. Qed.

Example rejects_missing_sub :
  (* email test@example.com, roles [user] *)
  outcome (parseToken
             (token "eyJlbWFpbCI6InRlc3RAZXhhbXBsZS5jb20iLCJyb2xlcyI6WyJ1c2VyIl19")
             anonymous)
  = Throw (InvalidTokenException Message.missing_sub).
Proof. vm_compute. reflexivity. Qed.

Example rejects_missing_email :
  (* sub user-123, roles [user] *)
  outcome (parseToken
             (token "eyJzdWIiOiJ1c2VyLTEyMyIsInJvbGVzIjpbInVzZXIiXX0")
             anonymous)
  = Throw (InvalidTokenException Message.missing_email).
Proof. vm_compute. reflexivity. Qed.

Example defaults_roles_to_empty :
  outcome (parseToken without_roles anonymous) = Normal (with_roles []).
Proof. vm_compute. reflexivity. Qed.

Example rejects_two_parts :
  outcome (parseToken (js "invalid.token") anonymous)
  = Throw (InvalidTokenException Message.structure).
Proof. vm_compute. reflexivity. Qed.

Example accepts_expired_with_warning :
  parseToken expired anonymous
  = ({| request := request anonymous;
        clock := clock anonymous;
        logged :=
          [ {| level := WARN; context := "JwtParserService";
               text := js "Token is expired but accepted in mock mode" |};
            {| level := DEBUG; context := "JwtParserService";
               text := js "Token parsed successfully" |} ] |},
     Normal {| sub := js "user-123"; email := js "test@example.com";
               roles := [js "user"]; exp := Some (inject_Z 1000);
               iat := None |}).
Proof. vm_compute. reflexivity. Qed.

Example empty_payload_is_not_json :
  split (js "a..b") (chr ".") = [js "a"; []; js "b"]
  /\ outcome (parseToken (js "a..b") anonymous)
     = Throw (InvalidTokenException Message.not_json).
Proof. split; vm_compute; reflexivity. Qed.

(** The header of a request is trimmed after the prefix is removed, and
    the claims end up on the request. *)
Example authenticates_a_bearer_token :
  let w := AuthGuard.canActivate (route (fun m => m))
             (incoming (Some (js "Bearer  " ++ valid ++ js " "))) in
  outcome w = Normal true /\ user (request w.1) = Some user123.
Proof. split; vm_compute; reflexivity. Qed.

Example rejects_a_lowercase_scheme :
  outcome (AuthGuard.canActivate (route (fun m => m))
             (incoming (Some (js "bearer " ++ valid))))
  = Throw (InvalidTokenException (js "Authorization header must use Bearer scheme")).
Proof. vm_compute. reflexivity. Qed.

(** The acceptance scenarios of the two role guards. *)
Example any_of_scenarios :
  let guard roles :=
    outcome (RequireRolesGuard.canActivate
               (route (Roles [js "admin"; js "moderator"]))
               (authenticated (with_roles roles))) in
  guard [js "admin"] = Normal true
  /\ guard [js "moderator"] = Normal true
  /\ guard [js "user"]
     = Throw (InsufficientPermissionsException
                (js "User lacks required role. Required one of: [admin, moderator]"))
  /\ guard [js "Admin"]
     = Throw (InsufficientPermissionsException
                (js "User lacks required role. Required one of: [admin, moderator]")).
Proof. repeat split; vm_compute; reflexivity. Qed.

Example all_of_scenarios :
  let guard roles :=
    outcome (RequireAllRolesGuard.canActivate
               (route (RequireAllRoles [js "admin"; js "superuser"]))
               (authenticated (with_roles roles))) in
  guard [js "admin"; js "superuser"] = Normal true
  /\ guard [js "admin"]
     = Throw (InsufficientPermissionsException
                (js "User lacks required roles. Missing: [superuser]"))
  /\ guard []
     = Throw (InsufficientPermissionsException
                (js "User lacks required roles. Missing: [admin, superuser]")).
Proof. repeat split; vm_compute; reflexivity. Qed.

(** Each guard reads its own metadata key. *)
Example guards_read_their_own_key :
  outcome (RequireAllRolesGuard.canActivate (route (Roles [js "admin"]))
             (authenticated (with_roles [])))
  = Normal true.
Proof. vm_compute. reflexivity. Qed.

End UnitTests.

(** ** Reasoning about computations *)

(** Unfold the combinators of [M] and let the calls run. *)
Ltac run :=
  cbv beta iota zeta delta
    [outcome mbind M_bind mret M_ret when tryCatch builtin throw Date_now
     getRequest setRequestUser
     Logger.warn Logger.debug Logger.log Logger.error Logger.write fst snd].

Ltac tidy :=
  cbn [andb negb orb isSome clock request logged user headers fst snd];
  cbv beta iota.

(** Case analysis on every test the goal still branches on. *)
Ltac cases :=
  repeat first
    [ reflexivity
    | solve [cbn [andb negb orb isSome] in *; congruence]
    | match goal with
      | |- context [if ?c then _ else _] => destruct c eqn:?; tidy
      | |- context [match ?c with Some _ => _ | None => _ end] =>
          destruct c eqn:?; tidy
      end ].

Create HintDb readonly.

Section ReadOnly.
Context {A B : Type}.

Lemma readOnly_ret (a : A) : readOnly (mret a).
Proof. intros w. split; reflexivity. Qed.

Lemma readOnly_throw (e : Exception) : readOnly (@throw A e).
Proof. intros w. split; reflexivity. Qed.

Lemma readOnly_builtin name (r : option A) : readOnly (builtin name r).
Proof. destruct r; intros w; split; reflexivity. Qed.

Lemma readOnly_bind (m : M A) (k : A -> M B) :
  readOnly m -> (forall a, readOnly (k a)) -> readOnly (m ≫= k).
Proof.
  intros Hm Hk w. specialize (Hm w).
  unfold mbind, M_bind. destruct (m w) as [w' [a|e]]; cbn in *.
  - destruct (Hk a w') as [-> ->]. exact Hm.
  - exact Hm.
Qed.

Lemma readOnly_tryCatch (body : M A) (handler : Exception -> M A) :
  readOnly body -> (forall e, readOnly (handler e)) ->
  readOnly (tryCatch body handler).
Proof.
  intros Hb Hh w. specialize (Hb w).
  unfold tryCatch. destruct (body w) as [w' [a|e]]; cbn in *.
  - exact Hb.
  - destruct (Hh e w') as [-> ->]. exact Hb.
Qed.

Lemma readOnly_if (c : bool) (m1 m2 : M A) :
  readOnly m1 -> readOnly m2 -> readOnly (if c then m1 else m2).
Proof. destruct c; auto. Qed.
End ReadOnly.

Lemma readOnly_when c body : readOnly body -> readOnly (when c body).
Proof. intros Hb. destruct c; [exact Hb | apply readOnly_ret]. Qed.

Lemma readOnly_write l name text : readOnly (Logger.write l name text).
Proof. intros w. split; reflexivity. Qed.

Lemma readOnly_Date_now : readOnly Date_now.
Proof. intros w. split; reflexivity. Qed.

Lemma readOnly_getRequest context : readOnly (getRequest context).
Proof. intros w. split; reflexivity. Qed.

#[export] Hint Resolve readOnly_ret readOnly_throw readOnly_builtin
  readOnly_bind readOnly_tryCatch readOnly_if readOnly_when readOnly_write
  readOnly_Date_now readOnly_getRequest : readonly.
#[export] Hint Unfold Logger.warn Logger.error Logger.log Logger.debug : readonly.

(** ** The parser *)

Section Parser.
Context `{Runtime}.
Import JwtParserService.

(** The parser writes to its logger and nothing else. *)
Lemma parseToken_readOnly token : readOnly (parseToken token).
Proof.
  unfold parseToken. cbv zeta.
  repeat first
    [ progress intros
    | apply readOnly_bind | apply readOnly_when | apply readOnly_tryCatch
    | apply readOnly_if | apply readOnly_ret | apply readOnly_throw
    | apply readOnly_builtin | apply readOnly_write | apply readOnly_Date_now ].
Qed.

Lemma parseToken_structure token w :
  length (split token (chr ".")) <> 3 ->
  outcome (parseToken token w) = Throw (InvalidTokenException Message.structure).
Proof.
  intros Hn. unfold parseToken.
  apply Nat.eqb_neq in Hn. rewrite Hn. reflexivity.
Qed.

Lemma parseToken_encoding token w header payload signature :
  split token (chr ".") = [header; payload; signature] ->
  decodePayload payload = None ->
  outcome (parseToken token w) = Throw (InvalidTokenException Message.encoding).
Proof.
  intros Hs Hd. unfold decodePayload, standardBase64 in Hd.
  unfold parseToken. rewrite Hs. cbn [length Nat.eqb negb nth]. run.
  destruct (Buffer_from_base64 _) as [bytes|]; [|reflexivity].
  cbn [mbind option_bind] in Hd. rewrite Hd. reflexivity.
Qed.

Lemma parseToken_not_json token w header payload signature text :
  split token (chr ".") = [header; payload; signature] ->
  decodePayload payload = Some text ->
  JSON_parse text = None ->
  outcome (parseToken token w) = Throw (InvalidTokenException Message.not_json).
Proof.
  intros Hs Hd Hp. unfold decodePayload, standardBase64 in Hd.
  destruct (Buffer_from_base64 _) as [bytes|] eqn:Hb; [|discriminate].
  cbn [mbind option_bind] in Hd.
  unfold parseToken. rewrite Hs. cbn [length Nat.eqb negb nth]. run.
  rewrite Hb, Hd, Hp. reflexivity.
Qed.

(** Once the payload has been parsed, the code completes as the summary
    says. *)
Lemma parseToken_parsed token w header payload signature text v :
  split token (chr ".") = [header; payload; signature] ->
  decodePayload payload = Some text ->
  JSON_parse text = Some v ->
  outcome (parseToken token w) = parsedOutcome (now w) v.
Proof.
  intros Hs Hd Hp. unfold decodePayload, standardBase64 in Hd.
  destruct (Buffer_from_base64 _) as [bytes|] eqn:Hb; [|discriminate].
  cbn [mbind option_bind] in Hd.
  unfold parseToken. rewrite Hs. cbn [length Nat.eqb negb nth]. run.
  rewrite Hb, Hd, Hp.
  unfold parsedOutcome, now, claimsOf, invalidString, expiryUnprintable,
    normalizedRoles, numeric, Message.not_object, Message.missing_sub,
    Message.missing_email.
  tidy. cases.
Qed.

End Parser.

(** ** The role guards *)

Section Roles.

Lemma includes_elem_of (xs : list jsstring) (x : jsstring) :
  includes xs x = true <-> x ∈ xs.
Proof.
  unfold includes, string_eqb. rewrite existsb_exists. split.
  - intros (y & Hin & Heq). apply bool_decide_eq_true in Heq. subst y.
    now apply list_elem_of_In.
  - intros Hin. exists x. split; [now apply list_elem_of_In|].
    now apply bool_decide_eq_true.
Qed.

Lemma some_includes (required held : list jsstring) :
  some required (fun role => includes held role) = true
  <-> exists role, role ∈ required /\ role ∈ held.
Proof.
  unfold some. rewrite existsb_exists. split.
  - intros (role & Hin & Hinc). exists role.
    split; [now apply list_elem_of_In | now apply includes_elem_of].
  - intros (role & Hin & Hinc). exists role.
    split; [now apply list_elem_of_In | now apply includes_elem_of].
Qed.

(** The array the all-of guard calls [missingRoles] is the sub-list of
    the required roles the user does not hold, in the order of the
    requirement. *)
Lemma missing_filter (required held : list jsstring) :
  filter required (fun role => negb (includes held role))
  = base.filter (fun role => role ∉ held) required.
Proof.
  unfold filter. induction required as [|role required IH]; [reflexivity|].
  cbn [List.filter]. rewrite filter_cons, IH.
  destruct (includes held role) eqn:Hinc; cbn [negb].
  - apply includes_elem_of in Hinc. rewrite decide_False; [reflexivity|].
    intros Hn. now apply Hn.
  - rewrite decide_True; [reflexivity|].
    intros Hin. apply includes_elem_of in Hin. congruence.
Qed.

Lemma missing_nil (required held : list jsstring) :
  base.filter (fun role => role ∉ held) required = []
  <-> forall role, role ∈ required -> role ∈ held.
Proof.
  split.
  - intros Hnil role Hin.
    destruct (decide (role ∈ held)) as [|Hn]; [assumption|].
    assert (Hf : role ∈ base.filter (fun role => role ∉ held) required)
      by (apply list_elem_of_filter; auto).
    rewrite Hnil in Hf. now apply not_elem_of_nil in Hf.
  - intros Hall.
    destruct (base.filter _ required) as [|role rest] eqn:Hf; [reflexivity|].
    assert (Hin : role ∈ base.filter (fun role => role ∉ held) required)
      by (rewrite Hf; left).
    apply list_elem_of_filter in Hin as [Hn Hin]. now apply Hall in Hin.
Qed.

Lemma length_zero {A} (xs : list A) : (length xs =? 0) = false <-> xs <> [].
Proof. destruct xs; cbn; split; congruence. Qed.

End Roles.





(** C4. An empty requirement allows under either guard, whatever the
    request carries: a user with roles, a user with none, or no user. *)
Theorem empty_requirement_allows context w :
  (Reflector.getAllAndOverride ROLES_KEY [getHandler context; getClass context]
     = Some [] ->
   outcome (RequireRolesGuard.canActivate context w) = Normal true)
  /\ (Reflector.getAllAndOverride ALL_ROLES_KEY [getHandler context; getClass context]
        = Some [] ->
      outcome (RequireAllRolesGuard.canActivate context w) = Normal true).
Proof.
  split; intros Hmeta.
  - unfold RequireRolesGuard.canActivate. rewrite Hmeta. reflexivity.
  - unfold RequireAllRolesGuard.canActivate. rewrite Hmeta. reflexivity.
Qed.

Lemma empty_requirement_allows_witness :
  outcome (RequireRolesGuard.canActivate
             (Sample.route (Roles []))
             (Sample.authenticated (Sample.with_roles [])))
  = Normal true
  /\ outcome (RequireAllRolesGuard.canActivate
                (Sample.route (RequireAllRoles []))
                (Sample.authenticated (Sample.with_roles [])))
     = Normal true.
Proof.
  split.
  - apply (proj1 (empty_requirement_allows (Sample.route (Roles [])) _)).
    reflexivity.
  - apply (proj2 (empty_requirement_allows (Sample.route (RequireAllRoles [])) _)).
    reflexivity.
Defined.

(** C5, as stated, fails for the empty requirement: both guards return
    [true] for a request that carries no user. *)
Lemma unauthenticated_empty_requirement_allowed :
  user (request Sample.anonymous) = None
  /\ Reflector.getAllAndOverride ROLES_KEY
       [getHandler (Sample.route (Roles [])); getClass (Sample.route (Roles []))]
     = Some []
  /\ outcome (RequireRolesGuard.canActivate (Sample.route (Roles []))
                Sample.anonymous)
     = Normal true
  /\ Reflector.getAllAndOverride ALL_ROLES_KEY
       [getHandler (Sample.route (RequireAllRoles []));
        getClass (Sample.route (RequireAllRoles []))]
     = Some []
  /\ outcome (RequireAllRolesGuard.canActivate (Sample.route (RequireAllRoles []))
                Sample.anonymous)
     = Normal true.
Proof. repeat split. Qed.

(** C5, amended. With a non-empty requirement and no user on the request,
    either guard throws the 403 exception with the message [User must be
    authenticated to check roles], which no role denial carries; the
    missing user is never taken for a user without roles. With an empty
    requirement, or none declared, the guard returns [true] before it
    looks at the request: whether a user is there or not, and whatever
    the user is. *)
Theorem unauthenticated_is_rejected context w :
  (user (request w) = None ->
   (forall required,
      Reflector.getAllAndOverride ROLES_KEY [getHandler context; getClass context]
        = Some required ->
      required <> [] ->
      outcome (RequireRolesGuard.canActivate context w)
      = Throw (InsufficientPermissionsException Message.not_authenticated)
      /\ Message.not_authenticated <> Message.lacks_any required)
   /\ (forall required,
         Reflector.getAllAndOverride ALL_ROLES_KEY
           [getHandler context; getClass context] = Some required ->
         required <> [] ->
         outcome (RequireAllRolesGuard.canActivate context w)
         = Throw (InsufficientPermissionsException Message.not_authenticated)
         /\ forall missing, Message.not_authenticated <> Message.lacks_all missing))
  /\ (Reflector.getAllAndOverride ROLES_KEY [getHandler context; getClass context]
        ∈ [None; Some []] ->
      outcome (RequireRolesGuard.canActivate context w) = Normal true)
  /\ (Reflector.getAllAndOverride ALL_ROLES_KEY [getHandler context; getClass context]
        ∈ [None; Some []] ->
      outcome (RequireAllRolesGuard.canActivate context w) = Normal true).
Proof.
  split; [intros Huser; split | split].
  - intros required Hmeta Hne. apply length_zero in Hne.
    unfold RequireRolesGuard.canActivate. rewrite Hmeta, Hne. run. rewrite Huser.
    split; [reflexivity | discriminate].
  - intros required Hmeta Hne. apply length_zero in Hne.
    unfold RequireAllRolesGuard.canActivate. rewrite Hmeta, Hne. run. rewrite Huser.
    split; [reflexivity | discriminate].
  - intros Hin. unfold RequireRolesGuard.canActivate.
    apply list_elem_of_In in Hin. destruct Hin as [<-|[<-|[]]]; reflexivity.
  - intros Hin. unfold RequireAllRolesGuard.canActivate.
    apply list_elem_of_In in Hin. destruct Hin as [<-|[<-|[]]]; reflexivity.
Qed.

Lemma unauthenticated_is_rejected_witness :
  outcome (RequireRolesGuard.canActivate
             (Sample.route (Roles [js "admin"])) Sample.anonymous)
  = Throw (InsufficientPermissionsException
             (js "User must be authenticated to check roles"))
  /\ outcome (RequireAllRolesGuard.canActivate
                (Sample.route (RequireAllRoles [js "admin"])) Sample.anonymous)
     = Throw (InsufficientPermissionsException
                (js "User must be authenticated to check roles"))
  /\ outcome (RequireRolesGuard.canActivate
                (Sample.route (Roles []))
                (Sample.authenticated (Sample.with_roles [js "user"])))
     = Normal true
  /\ outcome (RequireAllRolesGuard.canActivate
                (Sample.route (fun m => m))
                (Sample.authenticated (Sample.with_roles [js "user"])))
     = Normal true.
Proof.
  pose proof (unauthenticated_is_rejected
                (Sample.route (Roles [js "admin"])) Sample.anonymous)
    as (Hany & _).
  pose proof (unauthenticated_is_rejected
                (Sample.route (RequireAllRoles [js "admin"])) Sample.anonymous)
    as (Hall & _).
  pose proof (unauthenticated_is_rejected
                (Sample.route (Roles []))
                (Sample.authenticated (Sample.with_roles [js "user"])))
    as (_ & Hempty & _).
  pose proof (unauthenticated_is_rejected
                (Sample.route (fun m => m))
                (Sample.authenticated (Sample.with_roles [js "user"])))
    as (_ & _ & Hnone).
  split; [|split; [|split]].
  - apply (proj1 (Hany eq_refl) [js "admin"]); [reflexivity | discriminate].
  - apply (proj2 (Hall eq_refl) [js "admin"]); [reflexivity | discriminate].
  - apply Hempty. right; left.
  - apply Hnone. left.
Defined.

(** ** Decoding *)

Section Decoding.
Context `{Runtime}.
Import JwtParserService.

Lemma trim_nil : trim [] = [].
Proof. reflexivity. Qed.

(** A string that is not blank passes the test on [sub] and [email]. *)
Lemma invalidString_string (s : jsstring) :
  invalidString (Some (JString s)) = false <-> trim s <> [].
Proof.
  unfold invalidString, string_eqb. cbn [ToBoolean typeof asString].
  change (String.eqb "string" "string") with true. cbn [negb orb].
  split.
  - intros Hv Ht. rewrite Ht in Hv.
    rewrite (bool_decide_eq_true_2 _ eq_refl) in Hv.
    destruct (negb _); discriminate.
  - intros Ht.
    assert (Hs : s <> []) by (intros ->; now apply Ht).
    unfold string_eqb.
    rewrite (bool_decide_eq_false_2 _ Hs), (bool_decide_eq_false_2 _ Ht).
    reflexivity.
Qed.

(** The date of the expiry warning can be formatted whenever [exp] is
    at most 8.64e12 seconds away from the epoch, and the warning is not
    due at all when [exp] is not a number. *)
Lemma expiry_in_range nowSeconds (q : Q) :
  Qle_bool (Qabs (q * inject_Z 1000)) (inject_Z 8640000000000000) = true ->
  expiryUnprintable nowSeconds (Some (JNumber q)) = false.
Proof.
  intros Hq. unfold expiryUnprintable, Date_toISOString, TimeClip.
  cbn [asNumber]. rewrite Hq. cbn [isSome negb]. apply andb_false_r.
Qed.

Lemma expiry_not_numeric nowSeconds (v : option JsValue) :
  (forall q, v <> Some (JNumber q)) ->
  expiryUnprintable nowSeconds v = false /\ numeric v = None.
Proof.
  intros Hv. destruct v as [[ | | q | | | ]|]; try (split; reflexivity).
  now destruct (Hv q).
Qed.

(** Every payload object whose [sub] and [email] are strings that are
    not blank is accepted, unless the expiry warning is due for a date
    that cannot be formatted. The claims carry [sub] and [email] as they
    are, a numeric [exp], and no [exp] otherwise. *)
Lemma parseToken_accepts token w header payload signature text o s e :
  split token (chr ".") = [header; payload; signature] ->
  decodePayload payload = Some text ->
  JSON_parse text = Some (JObject o) ->
  o !! js "sub" = Some (JString s) -> trim s <> [] ->
  o !! js "email" = Some (JString e) -> trim e <> [] ->
  expiryUnprintable (now w) (o !! js "exp") = false ->
  exists claims,
    outcome (parseToken token w) = Normal claims
    /\ sub claims = s /\ email claims = e
    /\ exp claims = match o !! js "exp" with
                    | Some (JNumber q) => Some q
                    | _ => None
                    end.
Proof.
  intros Hs Hd Hp Hsub Hts Hemail Hte Hexp.
  rewrite (parseToken_parsed _ _ _ _ _ _ _ Hs Hd Hp).
  unfold parsedOutcome. cbn [ToBoolean typeof getProp negb orb].
  change (String.eqb "object" "object") with true. cbn [negb].
  rewrite Hsub, Hemail, Hexp.
  rewrite (proj2 (invalidString_string s) Hts).
  rewrite (proj2 (invalidString_string e) Hte).
  eexists. split; [reflexivity|].
  unfold claimsOf. cbn [sub email exp getProp]. rewrite Hsub, Hemail.
  split; [reflexivity|]. split; [reflexivity|].
  now destruct (o !! js "exp") as [[]|].
Qed.

(** The HTTP face of the two exceptions. *)
Lemma getResponse_status (message : jsstring) :
  getResponse (InvalidTokenException message)
  = Some {| statusCode := 401; error := js "INVALID_TOKEN"; message := message |}
  /\ getResponse (InsufficientPermissionsException message)
     = Some {| statusCode := 403; error := js "INSUFFICIENT_PERMISSIONS";
               message := message |}.
Proof. split; reflexivity. Qed.

End Decoding.

Section AncientExpiry.
Import Reference.

(** C1. The token [Sample.ancient] has three segments and its payload is
    an object whose [sub] and [email] are strings that are not blank, yet
    [parseToken] does not return: it throws the RangeError that
    [new Date(claims.exp * 1000).toISOString()] raises while the expiry
    warning is being prepared. *)
Theorem required_claims_present_yet_rejected :
  split Sample.ancient (chr ".")
  = [js Sample.header; js Sample.ancient_payload; js Sample.signature]
  /\ decodePayload (js Sample.ancient_payload) ≫= JSON_parse
     = Some (JObject {[ js "sub" := JString (js "user-123");
                        js "email" := JString (js "test@example.com");
                        js "exp" := JNumber (inject_Z (-8640000000001)) ]})
  /\ trim (js "user-123") <> []
  /\ trim (js "test@example.com") <> []
  /\ outcome (JwtParserService.parseToken Sample.ancient Sample.anonymous)
     = Throw (NativeError "RangeError").
Proof.
  split; [vm_compute; reflexivity|].
  split; [vm_compute; reflexivity|].
  split; [vm_compute; discriminate|].
  split; [vm_compute; discriminate|].
  vm_compute. reflexivity.
Qed.

(** C8. The same token carries the numeric [exp] -8640000000001, which is
    below the current time; the date of the warning, -8.640000000001e15 ms,
    is outside the range of [Date], and the call throws instead of
    returning claims whose [exp] is that number. The expired token of the
    unit tests and the token without [exp] are accepted. *)
Theorem ancient_expiry_rejected :
  ((decodePayload (js Sample.ancient_payload) ≫= JSON_parse)
   ≫= (fun claims => getProp claims (js "exp")))
  = Some (JNumber (inject_Z (-8640000000001)))
  /\ lt (inject_Z (-8640000000001)) (inject_Z (now Sample.anonymous)) = true
  /\ Date_toISOString (inject_Z (-8640000000001) * inject_Z 1000)%Q = None
  /\ outcome (JwtParserService.parseToken Sample.ancient Sample.anonymous)
     = Throw (NativeError "RangeError")
  /\ outcome (JwtParserService.parseToken Sample.expired Sample.anonymous)
     = Normal {| sub := js "user-123"; email := js "test@example.com";
                 roles := [js "user"]; exp := Some (inject_Z 1000);
                 iat := None |}
  /\ outcome (JwtParserService.parseToken Sample.without_roles Sample.anonymous)
     = Normal {| sub := js "user-123"; email := js "test@example.com";
                 roles := []; exp := None; iat := None |}.
Proof. repeat split; vm_compute; reflexivity. Qed.

End AncientExpiry.

(** ** Payloads that are not objects *)

(** C6, amended. For a token of three segments whose payload decodes to
    text: if the text is not JSON the call throws [JWT payload is not
    valid JSON]; if it is JSON for [null], a boolean, a number or a
    string the call throws [JWT payload must be an object]; in both cases
    the message is not the one of the [sub] or [email] check. If it is
    JSON for an array, the array passes the [typeof] test and the call
    throws the message of the [sub] check. *)
Theorem payload_shape `{Runtime} token w header payload signature text :
  split token (chr ".") = [header; payload; signature] ->
  decodePayload payload = Some text ->
  (JSON_parse text = None ->
   outcome (JwtParserService.parseToken token w)
   = Throw (InvalidTokenException Message.not_json))
  /\ (forall v,
        JSON_parse text = Some v ->
        v = JNull \/ (exists b, v = JBool b) \/ (exists q, v = JNumber q)
        \/ (exists s, v = JString s) ->
        outcome (JwtParserService.parseToken token w)
        = Throw (InvalidTokenException Message.not_object))
  /\ (forall elements,
        JSON_parse text = Some (JArray elements) ->
        outcome (JwtParserService.parseToken token w)
        = Throw (InvalidTokenException Message.missing_sub))
  /\ Message.not_json <> Message.missing_sub
  /\ Message.not_json <> Message.missing_email
  /\ Message.not_object <> Message.missing_sub
  /\ Message.not_object <> Message.missing_email.
Proof.
  intros Hs Hd.
  split; [intros Hp; now apply (parseToken_not_json _ _ _ _ _ _ Hs Hd)|].
  split.
  { intros v Hp Hv. rewrite (parseToken_parsed _ _ _ _ _ _ _ Hs Hd Hp).
    unfold parsedOutcome.
    destruct Hv as [->|[[b ->]|[[q ->]|[s ->]]]]; cbn [ToBoolean typeof];
      try reflexivity.
    - change (String.eqb "boolean" "object") with false.
      cbn [negb]. now rewrite orb_true_r.
    - change (String.eqb "number" "object") with false.
      cbn [negb]. now rewrite orb_true_r.
    - change (String.eqb "string" "object") with false.
      cbn [negb]. now rewrite orb_true_r. }
  split.
  { intros elements Hp. rewrite (parseToken_parsed _ _ _ _ _ _ _ Hs Hd Hp).
    reflexivity. }
  repeat split; discriminate.
Qed.

Section PayloadShape.
Import Reference.

(** C6, as stated, fails for an array: the payload [[]] parses, is not a
    JSON object, and is rejected with the message of the [sub] check, not
    with one of the two payload messages. *)
Lemma array_payload_reported_as_missing_sub :
  split Sample.array (chr ".") = [js Sample.header; js "W10"; js Sample.signature]
  /\ decodePayload (js "W10") = Some (js "[]")
  /\ JSON_parse (js "[]") = Some (JArray [])
  /\ outcome (JwtParserService.parseToken Sample.array Sample.anonymous)
     = Throw (InvalidTokenException Message.missing_sub)
  /\ Message.missing_sub <> Message.not_json
  /\ Message.missing_sub <> Message.not_object.
Proof.
  split; [vm_compute; reflexivity|].
  split; [vm_compute; reflexivity|].
  split; [vm_compute; reflexivity|].
  split; [vm_compute; reflexivity|].
  split; vm_compute; discriminate.
Qed.

Lemma payload_shape_witness :
  outcome (JwtParserService.parseToken Sample.null Sample.anonymous)
  = Throw (InvalidTokenException (js "JWT payload must be an object")).
Proof.
  pose proof (payload_shape Sample.null Sample.anonymous
                (js Sample.header) (js "bnVsbA") (js Sample.signature)
                (js "null") eq_refl eq_refl)
    as (_ & Hscalar & _).
  apply (Hscalar JNull); [reflexivity | left; reflexivity].
Defined.

End PayloadShape.

(** ** The roles claim *)

Section RolesClaim.

Lemma parsedOutcome_Normal nowSeconds v claims :
  parsedOutcome nowSeconds v = Normal claims -> claims = claimsOf v.
Proof.
  unfold parsedOutcome.
  repeat match goal with
         | |- context [if ?c then _ else _] => destruct c
         end; congruence.
Qed.

Lemma normalizedRoles_not_array v :
  (forall elements, v <> JArray elements) -> normalizedRoles (Some v) = [].
Proof.
  intros Hv. destruct v; try reflexivity. now destruct (Hv elements).
Qed.

Lemma normalizedRoles_mixed elements x :
  x ∈ elements -> (forall s, x <> JString s) ->
  normalizedRoles (Some (JArray elements)) = [].
Proof.
  intros Hin Hx. unfold normalizedRoles. cbn [isUndefined isArray asArray negb].
  assert (Hevery : every elements
                     (fun r => String.eqb (typeof (Some r)) "string") = false).
  { unfold every. apply not_true_is_false. intros Hall.
    rewrite forallb_forall in Hall.
    specialize (Hall x (proj1 (list_elem_of_In _ _) Hin)).
    destruct x; try discriminate. now destruct (Hx s). }
  now rewrite Hevery.
Qed.

Lemma normalizedRoles_strings (strings : list jsstring) :
  normalizedRoles (Some (JArray (JString <$> strings))) = strings.
Proof.
  unfold normalizedRoles. cbn [isUndefined isArray asArray negb].
  assert (Hevery : every (JString <$> strings)
                     (fun r => String.eqb (typeof (Some r)) "string") = true).
  { unfold every. apply forallb_forall. intros x Hin.
    apply list_elem_of_In, list_elem_of_fmap in Hin as (s & -> & _).
    reflexivity. }
  rewrite Hevery. induction strings as [|s strings IH]; [reflexivity|].
  cbn. f_equal. apply IH. unfold every in *. cbn in Hevery. exact Hevery.
Qed.

(** The tests that can make the parser throw do not read [roles]. *)
Lemma parsedOutcome_Throw_roles (nowSeconds : Z) (o o' : gmap jsstring JsValue)
  (e : Exception) :
  (forall name, name <> js "roles" -> o' !! name = o !! name) ->
  parsedOutcome nowSeconds (JObject o) = Throw e ->
  parsedOutcome nowSeconds (JObject o') = Throw e.
Proof.
  intros Hsame. unfold parsedOutcome. cbn [getProp ToBoolean typeof].
  rewrite !Hsame by discriminate.
  repeat match goal with
         | |- context [if ?c then _ else _] => destruct c
         end; congruence.
Qed.

End RolesClaim.

(** C7. For a token of three segments whose payload parses to an object:
    whenever the call returns claims, their [roles] are the empty list if
    the payload has no [roles], if its [roles] is not an array, or if the
    array has an element that is not a string, and they are the strings of
    the array, in order and with repetitions, otherwise; and whether and
    how the call throws does not depend on [roles]: a second token whose
    payload object differs from the first in [roles] alone throws exactly
    the exceptions the first one throws. The [roles] of a [UserClaims]
    are a list by their type, so they are never absent or null. *)
Theorem roles_never_fail `{Runtime} token w header payload signature text o :
  split token (chr ".") = [header; payload; signature] ->
  decodePayload payload = Some text ->
  JSON_parse text = Some (JObject o) ->
  (forall claims,
     outcome (JwtParserService.parseToken token w) = Normal claims ->
     (o !! js "roles" = None -> roles claims = [])
     /\ (forall v, o !! js "roles" = Some v ->
                   (forall elements, v <> JArray elements) -> roles claims = [])
     /\ (forall elements x,
           o !! js "roles" = Some (JArray elements) ->
           x ∈ elements -> (forall s, x <> JString s) -> roles claims = [])
     /\ (forall strings,
           o !! js "roles" = Some (JArray (JString <$> strings)) ->
           roles claims = strings))
  /\ (forall token' header' payload' signature' text' o',
        split token' (chr ".") = [header'; payload'; signature'] ->
        decodePayload payload' = Some text' ->
        JSON_parse text' = Some (JObject o') ->
        (forall name, name <> js "roles" -> o' !! name = o !! name) ->
        forall e,
          outcome (JwtParserService.parseToken token w) = Throw e
          <-> outcome (JwtParserService.parseToken token' w) = Throw e).
Proof.
  intros Hs Hd Hp. rewrite (parseToken_parsed _ _ _ _ _ _ _ Hs Hd Hp). split.
  - intros claims Hc. apply parsedOutcome_Normal in Hc. subst claims.
    unfold claimsOf. cbn [roles getProp]. repeat split.
    + intros ->. reflexivity.
    + intros v -> Hv. now apply normalizedRoles_not_array.
    + intros elements x -> Hin Hx. now apply (normalizedRoles_mixed elements x).
    + intros strings ->. apply normalizedRoles_strings.
  - intros token' header' payload' signature' text' o' Hs' Hd' Hp' Hsame e.
    rewrite (parseToken_parsed _ _ _ _ _ _ _ Hs' Hd' Hp'). split.
    + now apply parsedOutcome_Throw_roles.
    + apply parsedOutcome_Throw_roles. intros name Hn. symmetry. now apply Hsame.
Qed.

Section RolesClaimWitness.
Import Reference.

Lemma roles_never_fail_witness :
  outcome (JwtParserService.parseToken Sample.mixed_roles Sample.anonymous)
  = Normal (Sample.with_roles [])
  /\ roles (Sample.with_roles []) = [].
Proof.
  assert (Hc : outcome (JwtParserService.parseToken Sample.mixed_roles
                          Sample.anonymous)
               = Normal (Sample.with_roles [])) by (vm_compute; reflexivity).
  split; [exact Hc|].
  pose proof (roles_never_fail Sample.mixed_roles Sample.anonymous
                (js Sample.header) (js Sample.mixed_roles_payload)
                (js Sample.signature) _ _ eq_refl eq_refl eq_refl)
    as [Hroles _].
  destruct (Hroles _ Hc) as (_ & _ & Hmixed & _).
  apply (Hmixed [JString (js "admin"); JNumber (inject_Z 7)] (JNumber (inject_Z 7))).
  - vm_compute. reflexivity.
  - right. left.
  - discriminate.
Defined.

End RolesClaimWitness.

(** ** The payload segment *)

Section PayloadSegment.

Lemma padding_length (n : nat) : (n + (4 - n mod 4) mod 4) mod 4 = 0.
Proof.
  pose proof (Nat.mod_upper_bound n 4 ltac:(lia)) as Hlt.
  pose proof (Nat.div_mod_eq n 4) as Hn.
  destruct (n mod 4) as [|[|[|[|r]]]] eqn:Hr; try lia.
  - cbn. rewrite Nat.add_0_r. exact Hr.
  - change ((4 - 1) mod 4) with 3.
    replace (n + 3) with (0 + (n / 4 + 1) * 4) by lia.
    apply Nat.Div0.mod_add.
  - change ((4 - 2) mod 4) with 2.
    replace (n + 2) with (0 + (n / 4 + 1) * 4) by lia.
    apply Nat.Div0.mod_add.
  - change ((4 - 3) mod 4) with 1.
    replace (n + 1) with (0 + (n / 4 + 1) * 4) by lia.
    apply Nat.Div0.mod_add.
Qed.

Lemma replaceAll_length s c d : length (replaceAll s c d) = length s.
Proof. unfold replaceAll. apply length_map. Qed.

(** The text handed to the base64 decoder: the payload with [-] and [_]
    replaced, followed by at most three [=], of a length that is a
    multiple of 4. *)
Lemma standardBase64_shape (payload : jsstring) :
  standardBase64 payload
  = ((fun c => if (c =? chr "-")%N then chr "+"
               else if (c =? chr "_")%N then chr "/" else c) <$> payload)
    ++ repeat (chr "=") ((4 - length payload mod 4) mod 4)
  /\ (4 - length payload mod 4) mod 4 < 4
  /\ length (standardBase64 payload) mod 4 = 0.
Proof.
  unfold standardBase64, padEnd. cbv zeta. rewrite !replaceAll_length.
  replace (length payload + (4 - length payload mod 4) mod 4 - length payload)
    with ((4 - length payload mod 4) mod 4) by lia.
  split; [|split].
  - f_equal. unfold replaceAll. rewrite List.map_map.
    apply map_ext. intros c.
    destruct (c =? chr "-")%N eqn:Hc; [reflexivity|].
    reflexivity.
  - apply Nat.mod_upper_bound. lia.
  - rewrite length_app, !replaceAll_length, repeat_length.
    apply padding_length.
Qed.

End PayloadSegment.

(** The path of the payload, for every runtime. For a token of three
    segments, the payload segment with [-] mapped to [+] and [_] to [/],
    padded on the right with [=] to a length that is a multiple of 4, is
    what [Buffer.from(_, 'base64')] receives, and the bytes it returns
    are what [toString('utf-8')] receives. Only a throw of one of the
    two calls makes [parseToken] throw [JWT payload is not valid
    base64url encoding]; otherwise it goes on with the decoded text. *)
Lemma payload_decoding `{Runtime} token w header payload signature :
  split token (chr ".") = [header; payload; signature] ->
  (standardBase64 payload
   = ((fun c => if (c =? chr "-")%N then chr "+"
                else if (c =? chr "_")%N then chr "/" else c) <$> payload)
     ++ repeat (chr "=") ((4 - length payload mod 4) mod 4)
   /\ (4 - length payload mod 4) mod 4 < 4
   /\ length (standardBase64 payload) mod 4 = 0)
  /\ (Buffer_from_base64 (standardBase64 payload) = None ->
      outcome (JwtParserService.parseToken token w)
      = Throw (InvalidTokenException Message.encoding))
  /\ (forall bytes,
        Buffer_from_base64 (standardBase64 payload) = Some bytes ->
        Buffer_toString_utf8 bytes = None ->
        outcome (JwtParserService.parseToken token w)
        = Throw (InvalidTokenException Message.encoding))
  /\ (forall bytes text,
        Buffer_from_base64 (standardBase64 payload) = Some bytes ->
        Buffer_toString_utf8 bytes = Some text ->
        outcome (JwtParserService.parseToken token w)
        = match JSON_parse text with
          | Some v => parsedOutcome (now w) v
          | None => Throw (InvalidTokenException Message.not_json)
          end).
Proof.
  intros Hs. split; [apply standardBase64_shape|]. split; [|split].
  - intros Hb. apply (parseToken_encoding _ _ _ _ _ Hs).
    unfold decodePayload. now rewrite Hb.
  - intros bytes Hb Hu. apply (parseToken_encoding _ _ _ _ _ Hs).
    unfold decodePayload. now rewrite Hb.
  - intros bytes text Hb Hu.
    assert (Hd : decodePayload payload = Some text)
      by (unfold decodePayload; now rewrite Hb).
    destruct (JSON_parse text) as [v|] eqn:Hp.
    + apply (parseToken_parsed _ _ _ _ _ _ _ Hs Hd Hp).
    + apply (parseToken_not_json _ _ _ _ _ _ Hs Hd Hp).
Qed.

(** ** Authentication *)

Section Authentication.
Context `{Runtime}.

(** The bearer token [canActivate] hands to the parser. *)
Lemma canActivate_outcome context w :
  outcome (AuthGuard.canActivate context w)
  = match headers (request w) ≫= authorization with
    | None => Throw (InvalidTokenException (js "Missing Authorization header"))
    | Some authHeader =>
        if string_eqb authHeader []
        then Throw (InvalidTokenException (js "Missing Authorization header"))
        else if negb (startsWith authHeader (js "Bearer "))
        then Throw (InvalidTokenException
                      (js "Authorization header must use Bearer scheme"))
        else if string_eqb (trim (substring authHeader 7)) []
        then Throw (InvalidTokenException (js "Bearer token is empty"))
        else match outcome (JwtParserService.parseToken
                              (trim (substring authHeader 7)) w) with
             | Normal _ => Normal true
             | Throw e => Throw e
             end
    end.
Proof.
  unfold AuthGuard.canActivate. run.
  destruct (option_bind _ _ authorization (headers (request w)))
    as [authHeader|]; [|reflexivity].
  cbn [isTruthyString default from_option id negb].
  destruct (string_eqb authHeader []); [reflexivity|]. cbn [negb].
  destruct (startsWith authHeader (js "Bearer ")); [|reflexivity]. cbn [negb].
  change (length (js "Bearer ")) with 7.
  destruct (string_eqb (trim (substring authHeader 7)) []); [reflexivity|].
  destruct (JwtParserService.parseToken _ w) as [w' [claims|e]]; reflexivity.
Qed.

(** A failed authentication leaves the request as it was; a successful
    one changes its [user], to the claims the parser returned. *)
Lemma canActivate_request context w :
  match outcome (AuthGuard.canActivate context w) with
  | Throw _ => request (AuthGuard.canActivate context w).1 = request w
  | Normal _ =>
      exists authHeader claims,
        headers (request w) ≫= authorization = Some authHeader
        /\ outcome (JwtParserService.parseToken
                      (trim (substring authHeader 7)) w) = Normal claims
        /\ request (AuthGuard.canActivate context w).1
           = {| headers := headers (request w); user := Some claims |}
  end.
Proof.
  unfold AuthGuard.canActivate. run.
  destruct (option_bind _ _ authorization (headers (request w)))
    as [authHeader|]; [|reflexivity].
  cbn [isTruthyString default from_option id negb].
  destruct (string_eqb authHeader []); [reflexivity|]. cbn [negb].
  destruct (startsWith authHeader (js "Bearer ")); [|reflexivity]. cbn [negb].
  change (length (js "Bearer ")) with 7.
  destruct (string_eqb (trim (substring authHeader 7)) []); [reflexivity|].
  pose proof (parseToken_readOnly (trim (substring authHeader 7)) w) as [Hr _].
  destruct (JwtParserService.parseToken _ w) as [w' [claims|e]] eqn:Hp;
    cbn [fst snd] in *.
  - exists authHeader, claims. rewrite Hp, Hr. repeat split.
  - exact Hr.
Qed.

(** Without a [user] on the request the decorator has nothing to give. *)
Lemma User_undefined data context w :
  user (request w) = None -> outcome (User data context w) = Normal PUndefined.
Proof.
  intros Huser. unfold User. run. rewrite Huser. now destruct data.
Qed.

End Authentication.

(** C10. On a request whose [user] is not set, every way [canActivate]
    can throw leaves the request as it was, so that [user] is still not
    set, both accessors return [null] and the [User] decorator yields
    [undefined] for the record and for each of its fields; the header
    checks and the parser's exceptions are such throws. When
    [canActivate] returns, it returns [true] and [user] is the record the
    parser returned for the bearer token; nothing else of the request is
    changed. *)
Theorem authentication_is_atomic `{Runtime} context w :
  user (request w) = None ->
  (forall e,
     outcome (AuthGuard.canActivate context w) = Throw e ->
     let after := (AuthGuard.canActivate context w).1 in
     request after = request w
     /\ user (request after) = None
     /\ UserClaimsService.getUserClaims (request after) = None
     /\ GetUserClaims (request after) = None
     /\ outcome (User None context after) = Normal PUndefined
     /\ forall key, outcome (User (Some key) context after) = Normal PUndefined)
  /\ (forall allowed,
        outcome (AuthGuard.canActivate context w) = Normal allowed ->
        allowed = true
        /\ exists authHeader claims,
             headers (request w) ≫= authorization = Some authHeader
             /\ outcome (JwtParserService.parseToken
                           (trim (substring authHeader 7)) w) = Normal claims
             /\ request (AuthGuard.canActivate context w).1
                = {| headers := headers (request w); user := Some claims |})
  /\ (headers (request w) ≫= authorization ∈ [None; Some []] ->
      exists e, outcome (AuthGuard.canActivate context w) = Throw e)
  /\ (forall authHeader,
        headers (request w) ≫= authorization = Some authHeader ->
        startsWith authHeader (js "Bearer ") = false
        \/ trim (substring authHeader 7) = []
        \/ (exists e, outcome (JwtParserService.parseToken
                                 (trim (substring authHeader 7)) w) = Throw e) ->
        exists e, outcome (AuthGuard.canActivate context w) = Throw e).
Proof.
  intros Huser.
  pose proof (canActivate_request context w) as Hreq.
  pose proof (canActivate_outcome context w) as Hout.
  split; [|split; [|split]].
  - intros e He after. rewrite He in Hreq. fold after in Hreq.
    assert (Hafter : user (request after) = None) by now rewrite Hreq.
    split; [exact Hreq|]. split; [exact Hafter|].
    split; [unfold UserClaimsService.getUserClaims; now rewrite Hafter|].
    split; [unfold GetUserClaims; now rewrite Hafter|].
    split; [|intros key]; now apply User_undefined.
  - intros allowed Ha. rewrite Ha in Hreq. split; [|exact Hreq].
    rewrite Hout in Ha.
    repeat match type of Ha with
           | context [match ?c with _ => _ end] => destruct c
           end; congruence.
  - intros Hin. rewrite Hout.
    apply list_elem_of_In in Hin. destruct Hin as [<-|[<-|[]]]; eauto.
  - intros authHeader Hh Hfail. rewrite Hout, Hh.
    destruct (string_eqb authHeader []); [eauto|].
    destruct Hfail as [->|[->|[e ->]]]; cbn [negb]; eauto.
    + destruct (negb _); eauto.
    + destruct (negb _); [eauto|]. destruct (string_eqb _ _); eauto.
Qed.

Section AuthenticationWitness.
Import Reference.

Lemma authentication_is_atomic_witness :
  user (request (Sample.incoming (Some (js "Basic dXNlcjpwYXNz")))) = None
  /\ outcome (AuthGuard.canActivate (Sample.route (fun m => m))
                (Sample.incoming (Some (js "Basic dXNlcjpwYXNz"))))
     = Throw (InvalidTokenException
                (js "Authorization header must use Bearer scheme"))
  /\ GetUserClaims
       (request (AuthGuard.canActivate (Sample.route (fun m => m))
                   (Sample.incoming (Some (js "Basic dXNlcjpwYXNz")))).1)
     = None.
Proof.
  split; [reflexivity|]. split; [vm_compute; reflexivity|].
  pose proof (authentication_is_atomic (Sample.route (fun m => m))
                (Sample.incoming (Some (js "Basic dXNlcjpwYXNz"))) eq_refl)
    as [Hfail _].
  apply (Hfail (InvalidTokenException
                  (js "Authorization header must use Bearer scheme"))).
  vm_compute. reflexivity.
Defined.

End AuthenticationWitness.

(** * Further properties of the code *)

(** ** More about the parser *)

Section ParserOutcomes.
Context `{Runtime}.
Import JwtParserService.

Lemma split_nonempty (s : jsstring) (sep : N) : split s sep <> [].
Proof.
  induction s as [|c s IH]; cbn; [discriminate|].
  destruct (c =? sep)%N; [discriminate|].
  destruct (split s sep); [contradiction | discriminate].
Qed.

(** [split] yields one segment more than the string has separators. *)
Lemma split_length (s : jsstring) (sep : N) :
  length (split s sep) = S (length (List.filter (N.eqb sep) s)).
Proof.
  induction s as [|c s IH]; [reflexivity|].
  cbn [split List.filter]. rewrite (N.eqb_sym sep c).
  destruct (c =? sep)%N; cbn [length].
  - now rewrite IH.
  - pose proof (split_nonempty s sep) as Hne.
    destruct (split s sep); [contradiction | exact IH].
Qed.

(** Everything the parser can complete with, by the stage that decides. *)
Lemma parseToken_stages token w :
  outcome (parseToken token w)
  = match split token (chr ".") with
    | [_; payload; _] =>
        match decodePayload payload with
        | None => Throw (InvalidTokenException Message.encoding)
        | Some text =>
            match JSON_parse text with
            | None => Throw (InvalidTokenException Message.not_json)
            | Some v => parsedOutcome (now w) v
            end
        end
    | _ => Throw (InvalidTokenException Message.structure)
    end.
Proof.
  destruct (split token (chr ".")) as [|header [|payload [|signature [|extra rest]]]] eqn:Hs;
    try (apply parseToken_structure; rewrite Hs; cbn; lia).
  destruct (decodePayload payload) as [text|] eqn:Hd.
  - destruct (JSON_parse text) as [v|] eqn:Hp.
    + now apply (parseToken_parsed _ _ _ _ _ _ _ Hs Hd Hp).
    + now apply (parseToken_not_json _ _ _ _ _ _ Hs Hd Hp).
  - now apply (parseToken_encoding _ _ _ _ _ Hs Hd).
Qed.

Lemma parsedOutcome_messages nowSeconds v e :
  parsedOutcome nowSeconds v = Throw e ->
  e = InvalidTokenException Message.not_object
  \/ e = InvalidTokenException Message.missing_sub
  \/ e = InvalidTokenException Message.missing_email
  \/ e = NativeError "RangeError".
Proof.
  unfold parsedOutcome.
  repeat match goal with
         | |- context [if ?c then _ else _] => destruct c
         end; intros [= <-]; auto.
Qed.

End ParserOutcomes.

(** X1. The parser throws [JWT token must have exactly 3 parts separated
    by dots] exactly for the tokens that do not have two dots; no other
    defect is reported with that message. *)
Theorem structure_rejected `{Runtime} token w :
  outcome (JwtParserService.parseToken token w)
  = Throw (InvalidTokenException Message.structure)
  <-> length (List.filter (N.eqb (chr ".")) token) <> 2.
Proof.
  rewrite parseToken_stages.
  pose proof (split_length token (chr ".")) as Hlen.
  destruct (split token (chr ".")) as [|header [|payload [|signature [|extra rest]]]];
    cbn [length] in Hlen; try (split; [lia | reflexivity]).
  split; [|lia]. intros Hout. exfalso.
  destruct (decodePayload payload) as [text|]; [|discriminate].
  destruct (JSON_parse text) as [v|]; [|discriminate].
  apply parsedOutcome_messages in Hout.
  destruct Hout as [Hm|[Hm|[Hm|Hm]]]; discriminate.
Qed.

(** X2. Of a token the parser reads the payload segment only: two tokens
    of three segments with the same payload segment complete alike,
    whatever their header and signature segments are, when parsed within
    the same second. *)
Theorem only_payload_is_read `{Runtime} token token' w w'
    header payload signature header' signature' :
  split token (chr ".") = [header; payload; signature] ->
  split token' (chr ".") = [header'; payload; signature'] ->
  now w = now w' ->
  outcome (JwtParserService.parseToken token w)
  = outcome (JwtParserService.parseToken token' w').
Proof.
  intros Hs Hs' Hnow. rewrite !parseToken_stages, Hs, Hs', Hnow. reflexivity.
Qed.

(** X3. Whatever the token, a throw of the parser is [InvalidTokenException]
    with one of its six messages, answered with status 401 and code
    [INVALID_TOKEN], or the RangeError of the date of the expiry warning;
    it is never the 403 exception. *)
Theorem parser_failures `{Runtime} token w e :
  outcome (JwtParserService.parseToken token w) = Throw e ->
  (exists message,
     e = InvalidTokenException message
     /\ message ∈ [Message.structure; Message.encoding; Message.not_json;
                   Message.not_object; Message.missing_sub;
                   Message.missing_email]
     /\ getResponse e
        = Some {| statusCode := 401; error := js "INVALID_TOKEN";
                  message := message |})
  \/ e = NativeError "RangeError".
Proof.
  rewrite parseToken_stages. intros Hout.
  assert (Hcases :
    e = InvalidTokenException Message.structure
    \/ e = InvalidTokenException Message.encoding
    \/ e = InvalidTokenException Message.not_json
    \/ e = InvalidTokenException Message.not_object
    \/ e = InvalidTokenException Message.missing_sub
    \/ e = InvalidTokenException Message.missing_email
    \/ e = NativeError "RangeError").
  { destruct (split token (chr "."))
      as [|header [|payload [|signature [|extra rest]]]];
      try (injection Hout as <-; tauto).
    destruct (decodePayload payload) as [text|]; [|injection Hout as <-; tauto].
    destruct (JSON_parse text) as [v|]; [|injection Hout as <-; tauto].
    apply parsedOutcome_messages in Hout. tauto. }
  destruct Hcases as [-> | [-> | [-> | [-> | [-> | [-> | ->]]]]]];
    [left.. | right; reflexivity];
    eexists; (split; [reflexivity|]); (split; [|reflexivity]);
    repeat first [left; reflexivity | right].
Qed.

Section ParserWitnesses.
Import Reference.

Lemma only_payload_is_read_witness :
  outcome (JwtParserService.parseToken Sample.without_roles Sample.anonymous)
  = outcome (JwtParserService.parseToken
               (js "e30.eyJzdWIiOiJ1c2VyLTEyMyIsImVtYWlsIjoidGVzdEBleGFtcGxlLmNvbSJ9.")
               (Sample.authenticated Sample.user123)).
Proof.
  apply (only_payload_is_read _ _ _ _
           (js Sample.header)
           (js "eyJzdWIiOiJ1c2VyLTEyMyIsImVtYWlsIjoidGVzdEBleGFtcGxlLmNvbSJ9")
           (js Sample.signature) (js "e30") []); reflexivity.
Defined.

Lemma parser_failures_witness :
  (exists message,
     InvalidTokenException Message.missing_sub = InvalidTokenException message
     /\ message ∈ [Message.structure; Message.encoding; Message.not_json;
                   Message.not_object; Message.missing_sub;
                   Message.missing_email]
     /\ getResponse (InvalidTokenException Message.missing_sub)
        = Some {| statusCode := 401; error := js "INVALID_TOKEN";
                  message := message |})
  \/ InvalidTokenException Message.missing_sub = NativeError "RangeError".
Proof.
  apply (parser_failures Sample.array Sample.anonymous).
  vm_compute. reflexivity.
Defined.

End ParserWitnesses.

Section ParserClaims.

Lemma invalidString_false (v : option JsValue) :
  invalidString v = false ->
  exists s, v = Some (JString s) /\ trim s <> [].
Proof.
  destruct v as [[ | b | q | s | l | o]|].
  - discriminate.
  - destruct b; discriminate.
  - unfold invalidString. cbn [ToBoolean typeof].
    destruct (negb (negb _)); discriminate.
  - intros Hv. exists s. split; [reflexivity|].
    now apply invalidString_string.
  - discriminate.
  - discriminate.
  - discriminate.
Qed.

Lemma invalidString_true (v : option JsValue) :
  (forall s, v = Some (JString s) -> trim s = []) -> invalidString v = true.
Proof.
  intros Hv. destruct (invalidString v) eqn:Hi; [reflexivity|].
  apply invalidString_false in Hi as (s & -> & Hs). now destruct Hs; apply Hv.
Qed.

Lemma numeric_cases (v : option JsValue) :
  numeric v = match v with
              | Some (JNumber q) => Some q
              | _ => None
              end.
Proof. now destruct v as [[]|]. Qed.

Lemma parsedOutcome_accepts nowSeconds v claims :
  parsedOutcome nowSeconds v = Normal claims ->
  exists o, v = JObject o
    /\ claims = claimsOf v
    /\ invalidString (o !! js "sub") = false
    /\ invalidString (o !! js "email") = false
    /\ expiryUnprintable nowSeconds (o !! js "exp") = false.
Proof.
  unfold parsedOutcome. intros Hout.
  destruct (negb _ || _); [discriminate|].
  destruct (invalidString (getProp v (js "sub"))) eqn:Hsub; [discriminate|].
  destruct (invalidString (getProp v (js "email"))) eqn:Hemail; [discriminate|].
  destruct (expiryUnprintable _ _) eqn:Hexp; [discriminate|].
  injection Hout as <-.
  destruct v as [ | | | | |o]; try discriminate. now exists o.
Qed.

End ParserClaims.

(** X4. When the parser returns claims, the token had three segments and
    its payload was JSON for an object whose [sub] and [email] are strings
    that are not blank; the claims carry these two strings as they are
    (not trimmed), the numeric [exp] and [iat] of the payload, and no
    [exp] or [iat] where the payload has none or one that is not a
    number. *)
Theorem accepted_claims `{Runtime} token w claims :
  outcome (JwtParserService.parseToken token w) = Normal claims ->
  exists header payload signature text o,
    split token (chr ".") = [header; payload; signature]
    /\ decodePayload payload = Some text
    /\ JSON_parse text = Some (JObject o)
    /\ o !! js "sub" = Some (JString (sub claims)) /\ trim (sub claims) <> []
    /\ o !! js "email" = Some (JString (email claims))
    /\ trim (email claims) <> []
    /\ exp claims = match o !! js "exp" with
                    | Some (JNumber q) => Some q
                    | _ => None
                    end
    /\ iat claims = match o !! js "iat" with
                    | Some (JNumber q) => Some q
                    | _ => None
                    end.
Proof.
  rewrite parseToken_stages. intros Hout.
  destruct (split token (chr ".")) as [|header [|payload [|signature [|extra rest]]]]
    eqn:Hs; try discriminate.
  destruct (decodePayload payload) as [text|] eqn:Hd; [|discriminate].
  destruct (JSON_parse text) as [v|] eqn:Hp; [|discriminate].
  apply parsedOutcome_accepts in Hout as (o & -> & -> & Hsub & Hemail & _).
  apply invalidString_false in Hsub as (s & Hsub & Hts).
  apply invalidString_false in Hemail as (e & Hemail & Hte).
  exists header, payload, signature, text, o.
  unfold claimsOf. cbn [sub email exp iat getProp].
  rewrite Hsub, Hemail, !numeric_cases. cbn [asString].
  repeat (split; [first [reflexivity | assumption]|]). reflexivity.
Qed.

(** X5. A token of three segments whose payload is JSON for an object
    with [sub] and [email] strings that are not blank is accepted, with
    these two strings as they are, provided the expiry warning is not due
    for a date outside the range of [Date]: that is, provided [exp], when
    it is a number below the current time, is at most 8.64e12 seconds
    away from the epoch. *)
Theorem valid_claims_accepted `{Runtime} token w header payload signature text o s e :
  split token (chr ".") = [header; payload; signature] ->
  decodePayload payload = Some text ->
  JSON_parse text = Some (JObject o) ->
  o !! js "sub" = Some (JString s) -> trim s <> [] ->
  o !! js "email" = Some (JString e) -> trim e <> [] ->
  (forall q, o !! js "exp" = Some (JNumber q) ->
             lt q (inject_Z (now w)) = true ->
             (Qabs (q * inject_Z 1000) <= inject_Z 8640000000000000)%Q) ->
  exists claims,
    outcome (JwtParserService.parseToken token w) = Normal claims
    /\ sub claims = s /\ email claims = e.
Proof.
  intros Hs Hd Hp Hsub Hts Hemail Hte Hexp.
  rewrite parseToken_stages, Hs, Hd, Hp.
  unfold parsedOutcome. cbn [ToBoolean typeof getProp negb orb].
  change (String.eqb "object" "object") with true. cbn [negb].
  rewrite Hsub, Hemail.
  rewrite (proj2 (invalidString_string s) Hts).
  rewrite (proj2 (invalidString_string e) Hte).
  assert (Hprint : expiryUnprintable (now w) (o !! js "exp") = false).
  { destruct (o !! js "exp") as [[ | | q | | | ]|] eqn:Hq; try reflexivity.
    unfold expiryUnprintable. cbn [isUndefined typeof asNumber negb andb].
    change (String.eqb "number" "number") with true. cbn [andb].
    destruct (lt q (inject_Z (now w))) eqn:Hlt; [|reflexivity].
    unfold Date_toISOString, TimeClip.
    rewrite (proj2 (Qle_bool_iff _ _) (Hexp q eq_refl Hlt)). reflexivity. }
  rewrite Hprint. eexists. split; [reflexivity|].
  unfold claimsOf. cbn [sub email getProp]. rewrite Hsub, Hemail. split; reflexivity.
Qed.

(** X6. For a payload object, [sub] is checked before [email]: a [sub]
    that is absent, not a string, empty or blank makes the parser throw
    the message of [sub] whatever [email] is, and with a good [sub] an
    [email] that is absent, not a string, empty or blank makes it throw
    the message of [email]. *)
Theorem required_claims_checked `{Runtime} token w header payload signature text o :
  split token (chr ".") = [header; payload; signature] ->
  decodePayload payload = Some text ->
  JSON_parse text = Some (JObject o) ->
  ((forall s, o !! js "sub" = Some (JString s) -> trim s = []) ->
   outcome (JwtParserService.parseToken token w)
   = Throw (InvalidTokenException Message.missing_sub))
  /\ (forall s,
        o !! js "sub" = Some (JString s) -> trim s <> [] ->
        (forall e, o !! js "email" = Some (JString e) -> trim e = []) ->
        outcome (JwtParserService.parseToken token w)
        = Throw (InvalidTokenException Message.missing_email)).
Proof.
  intros Hs Hd Hp. rewrite parseToken_stages, Hs, Hd, Hp.
  unfold parsedOutcome. cbn [ToBoolean typeof getProp negb orb].
  change (String.eqb "object" "object") with true. cbn [negb]. split.
  - intros Hsub. now rewrite (invalidString_true _ Hsub).
  - intros s Hsub Hts Hemail.
    rewrite Hsub, (proj2 (invalidString_string s) Hts).
    now rewrite (invalidString_true _ Hemail).
Qed.

(** X7. Whether a token has expired never decides: when the [exp] of the
    payload object is not a number, or is a number at most 8.64e12 seconds
    away from the epoch, the parser completes in the same way at every
    time of the clock. *)
Theorem expiry_is_informational `{Runtime} token w w' header payload signature text o :
  split token (chr ".") = [header; payload; signature] ->
  decodePayload payload = Some text ->
  JSON_parse text = Some (JObject o) ->
  (forall q, o !! js "exp" = Some (JNumber q) ->
             (Qabs (q * inject_Z 1000) <= inject_Z 8640000000000000)%Q) ->
  outcome (JwtParserService.parseToken token w)
  = outcome (JwtParserService.parseToken token w').
Proof.
  intros Hs Hd Hp Hexp. rewrite !parseToken_stages, Hs, Hd, Hp.
  assert (Hprint : forall n, expiryUnprintable n (o !! js "exp") = false).
  { intros n. destruct (o !! js "exp") as [[ | | q | | | ]|] eqn:Hq;
      try reflexivity.
    apply expiry_in_range. apply Qle_bool_iff. now apply Hexp. }
  unfold parsedOutcome. cbn [getProp]. now rewrite !Hprint.
Qed.

(** X8. [iat] is carried and never checked: two tokens whose payload
    objects differ in [iat] alone throw the same exceptions, and when the
    first is accepted so is the second, with the same claims except for
    [iat]. *)
Theorem iat_is_not_validated `{Runtime} token token' w
    header payload signature text o header' payload' signature' text' o' :
  split token (chr ".") = [header; payload; signature] ->
  decodePayload payload = Some text ->
  JSON_parse text = Some (JObject o) ->
  split token' (chr ".") = [header'; payload'; signature'] ->
  decodePayload payload' = Some text' ->
  JSON_parse text' = Some (JObject o') ->
  (forall name, name <> js "iat" -> o' !! name = o !! name) ->
  (forall e,
     outcome (JwtParserService.parseToken token w) = Throw e
     <-> outcome (JwtParserService.parseToken token' w) = Throw e)
  /\ (forall claims,
        outcome (JwtParserService.parseToken token w) = Normal claims ->
        outcome (JwtParserService.parseToken token' w)
        = Normal {| sub := sub claims; email := email claims;
                    roles := roles claims; exp := exp claims;
                    iat := match o' !! js "iat" with
                           | Some (JNumber q) => Some q
                           | _ => None
                           end |}).
Proof.
  intros Hs Hd Hp Hs' Hd' Hp' Hsame.
  rewrite !parseToken_stages, Hs, Hd, Hp, Hs', Hd', Hp'.
  unfold parsedOutcome, claimsOf. cbn [getProp ToBoolean typeof].
  rewrite !Hsame by discriminate. rewrite (numeric_cases (o' !! js "iat")).
  split.
  - intros e.
    repeat match goal with
           | |- context [if ?c then _ else _] => destruct c
           end; split; congruence.
  - intros claims.
    repeat match goal with
           | |- context [if ?c then _ else _] => destruct c
           end; try discriminate.
    intros [= <-]. reflexivity.
Qed.

Section ParserClaimsWitnesses.
Import Reference.

Lemma accepted_claims_witness :
  exists header payload signature text o,
    split Sample.valid (chr ".") = [header; payload; signature]
    /\ decodePayload payload = Some text
    /\ JSON_parse text = Some (JObject o)
    /\ o !! js "sub" = Some (JString (sub Sample.user123))
    /\ trim (sub Sample.user123) <> []
    /\ o !! js "email" = Some (JString (email Sample.user123))
    /\ trim (email Sample.user123) <> []
    /\ exp Sample.user123 = match o !! js "exp" with
                            | Some (JNumber q) => Some q
                            | _ => None
                            end
    /\ iat Sample.user123 = match o !! js "iat" with
                            | Some (JNumber q) => Some q
                            | _ => None
                            end.
Proof.
  apply (accepted_claims Sample.valid Sample.anonymous Sample.user123).
  vm_compute. reflexivity.
Defined.

Lemma valid_claims_accepted_witness :
  exists claims,
    outcome (JwtParserService.parseToken Sample.expired Sample.anonymous)
    = Normal claims
    /\ sub claims = js "user-123" /\ email claims = js "test@example.com".
Proof.
  eapply (valid_claims_accepted Sample.expired Sample.anonymous).
  - vm_compute. reflexivity.
  - vm_compute. reflexivity.
  - vm_compute. reflexivity.
  - vm_compute. reflexivity.
  - vm_compute. discriminate.
  - vm_compute. reflexivity.
  - vm_compute. discriminate.
  - intros q Hq _. vm_compute in Hq. injection Hq as <-.
    vm_compute. discriminate.
Defined.

Lemma required_claims_checked_witness :
  outcome (JwtParserService.parseToken
             (* sub user-123, email of three spaces *)
             (Sample.token "eyJzdWIiOiJ1c2VyLTEyMyIsImVtYWlsIjoiICAgIn0")
             Sample.anonymous)
  = Throw (InvalidTokenException Message.missing_email).
Proof.
  pose proof (required_claims_checked
                (Sample.token "eyJzdWIiOiJ1c2VyLTEyMyIsImVtYWlsIjoiICAgIn0")
                Sample.anonymous (js Sample.header)
                (js "eyJzdWIiOiJ1c2VyLTEyMyIsImVtYWlsIjoiICAgIn0")
                (js Sample.signature) _ _ eq_refl eq_refl eq_refl)
    as [_ Hemail].
  apply (Hemail (js "user-123")).
  - vm_compute. reflexivity.
  - vm_compute. discriminate.
  - intros e He. vm_compute in He. injection He as <-. vm_compute. reflexivity.
Defined.

Lemma expiry_is_informational_witness :
  outcome (JwtParserService.parseToken Sample.expired Sample.anonymous)
  = outcome (JwtParserService.parseToken Sample.expired
               {| request := request Sample.anonymous; clock := 0; logged := [] |}).
Proof.
  eapply (expiry_is_informational Sample.expired).
  - vm_compute. reflexivity.
  - vm_compute. reflexivity.
  - vm_compute. reflexivity.
  - intros q Hq. vm_compute in Hq. injection Hq as <-. vm_compute. discriminate.
Defined.

Lemma iat_is_not_validated_witness :
  outcome (JwtParserService.parseToken
             (* sub user-123, email test@example.com, iat the string yesterday *)
             (Sample.token "eyJzdWIiOiJ1c2VyLTEyMyIsImVtYWlsIjoidGVzdEBleGFtcGxlLmNvbSIsImlhdCI6Inllc3RlcmRheSJ9")
             Sample.anonymous)
  = Normal (Sample.with_roles []).
Proof.
  pose (o := ({[ js "sub" := JString (js "user-123");
                 js "email" := JString (js "test@example.com") ]}
              : gmap jsstring JsValue)).
  evar (text : jsstring). evar (text' : jsstring).
  assert (Hd : decodePayload
                 (js "eyJzdWIiOiJ1c2VyLTEyMyIsImVtYWlsIjoidGVzdEBleGFtcGxlLmNvbSJ9")
               = Some text) by (unfold text; vm_compute; reflexivity).
  assert (Hp : JSON_parse text = Some (JObject o)) by (vm_compute; reflexivity).
  assert (Hd' : decodePayload
                  (js "eyJzdWIiOiJ1c2VyLTEyMyIsImVtYWlsIjoidGVzdEBleGFtcGxlLmNvbSIsImlhdCI6Inllc3RlcmRheSJ9")
                = Some text') by (unfold text'; vm_compute; reflexivity).
  assert (Hp' : JSON_parse text'
                = Some (JObject (<[js "iat" := JString (js "yesterday")]> o)))
    by (vm_compute; reflexivity).
  pose proof (iat_is_not_validated Sample.without_roles
                (Sample.token "eyJzdWIiOiJ1c2VyLTEyMyIsImVtYWlsIjoidGVzdEBleGFtcGxlLmNvbSIsImlhdCI6Inllc3RlcmRheSJ9")
                Sample.anonymous
                (js Sample.header) _ (js Sample.signature) text o
                (js Sample.header) _ (js Sample.signature) text' _
                eq_refl Hd Hp eq_refl Hd' Hp') as Hiat.
  destruct Hiat as [_ Hclaims].
  - intros name Hname. apply lookup_insert_ne. congruence.
  - apply (Hclaims (Sample.with_roles [])). vm_compute. reflexivity.
Defined.

End ParserClaimsWitnesses.

(** ** The payload alphabet *)

Section PayloadAlphabet.

Lemma standardBase64_idempotent (payload : jsstring) :
  standardBase64 (standardBase64 payload) = standardBase64 payload.
Proof.
  destruct (standardBase64_shape (standardBase64 payload)) as (Hshape & _ & _).
  destruct (standardBase64_shape payload) as (Hp & _ & Hlen).
  rewrite Hshape, Hlen. cbn [repeat]. rewrite app_nil_r.
  rewrite Hp at 2. rewrite Hp, fmap_app. f_equal.
  - rewrite <- list_fmap_compose. apply list_fmap_ext. intros _ c _.
    unfold compose. cbv beta.
    destruct (c =? chr "-")%N eqn:Hminus; [reflexivity|].
    destruct (c =? chr "_")%N eqn:Hlow; [reflexivity|].
    now rewrite Hminus, Hlow.
  - generalize ((4 - length payload mod 4) mod 4). intros k.
    induction k as [|k IH]; [reflexivity|]. cbn [repeat fmap list_fmap].
    f_equal. exact IH.
Qed.

End PayloadAlphabet.

(** X9. The payload segment may come in either base64 alphabet, padded
    or not: a token whose payload segment is the standard, padded form
    of the payload segment of another token completes as that token
    does. *)
Theorem payload_alphabets `{Runtime} token token' w
    header payload signature header' signature' :
  split token (chr ".") = [header; payload; signature] ->
  split token' (chr ".") = [header'; standardBase64 payload; signature'] ->
  outcome (JwtParserService.parseToken token w)
  = outcome (JwtParserService.parseToken token' w).
Proof.
  intros Hs Hs'. rewrite !parseToken_stages, Hs, Hs'.
  unfold decodePayload. now rewrite standardBase64_idempotent.
Qed.

Section PayloadAlphabetWitness.
Import Reference.

Lemma payload_alphabets_witness :
  outcome (JwtParserService.parseToken
             (Sample.token "eyJzdWIiOiLDu8O_LTEiLCJlbWFpbCI6ImFAeC5pbz8_Pj4ifQ")
             Sample.anonymous)
  = outcome (JwtParserService.parseToken
               (Sample.token "eyJzdWIiOiLDu8O/LTEiLCJlbWFpbCI6ImFAeC5pbz8/Pj4ifQ==")
               Sample.anonymous).
Proof.
  apply (payload_alphabets _ _ _ (js Sample.header)
           (js "eyJzdWIiOiLDu8O_LTEiLCJlbWFpbCI6ImFAeC5pbz8_Pj4ifQ")
           (js Sample.signature) (js Sample.header) (js Sample.signature));
    reflexivity.
Defined.

End PayloadAlphabetWitness.

(** ** What the parser writes *)

Ltac branch :=
  repeat first
    [ progress tidy
    | match goal with
      | |- context [if ?c then _ else _] => destruct c
      | |- context [match ?c with Some _ => _ | None => _ end] => destruct c
      end ].

(** X10. A call of the parser changes nothing but the log. Every throw
    of [InvalidTokenException] is announced by exactly one warning of the
    parser's logger; every return is followed by its debug event, after
    at most two warnings (about [roles], about the expiry). *)
Theorem parser_log `{Runtime} token w :
  match JwtParserService.parseToken token w with
  | (w', Throw (InvalidTokenException _)) =>
      exists text,
        w' = {| request := request w; clock := clock w;
                logged := logged w
                          ++ [{| level := WARN; context := "JwtParserService";
                                 text := text |}] |}
  | (w', Normal _) =>
      exists warnings,
        w' = {| request := request w; clock := clock w;
                logged := logged w ++ warnings
                          ++ [{| level := DEBUG; context := "JwtParserService";
                                 text := js "Token parsed successfully" |}] |}
        /\ length warnings <= 2
        /\ Forall (fun event => level event = WARN) warnings
  | (w', Throw _) => request w' = request w /\ clock w' = clock w
  end.
Proof.
  unfold JwtParserService.parseToken, JwtParserService.logger. run. branch;
    first
      [ split; reflexivity
      | eexists; reflexivity
      | exists []; split; [reflexivity|]; split; [cbn; lia | constructor]
      | eexists [_]; split; [rewrite <- ?app_assoc; reflexivity|];
        split; [cbn; lia | repeat constructor]
      | eexists [_; _]; split; [rewrite <- ?app_assoc; reflexivity|];
        split; [cbn; lia | repeat constructor] ].
Qed.

(** ** More about authentication *)

Section AuthenticationOutcomes.
Context `{Runtime}.

Lemma parseToken_throws token w e :
  outcome (JwtParserService.parseToken token w) = Throw e ->
  (exists message, e = InvalidTokenException message)
  \/ e = NativeError "RangeError".
Proof.
  rewrite parseToken_stages. intros Hout.
  destruct (split token (chr ".")) as [|header [|payload [|signature [|extra rest]]]];
    try (injection Hout as <-; eauto).
  destruct (decodePayload payload) as [text|]; [|injection Hout as <-; eauto].
  destruct (JSON_parse text) as [v|]; [|injection Hout as <-; eauto].
  apply parsedOutcome_messages in Hout.
  destruct Hout as [-> | [-> | [-> | ->]]]; eauto.
Qed.

(** The parser completes alike in worlds that agree on the current
    second. *)
Lemma parseToken_now token w w' :
  now w = now w' ->
  outcome (JwtParserService.parseToken token w)
  = outcome (JwtParserService.parseToken token w').
Proof. intros Hnow. now rewrite !parseToken_stages, Hnow. Qed.

Lemma startsWith_nonempty (s p : jsstring) :
  startsWith s p = true -> p <> [] -> s <> [].
Proof. destruct p; [easy|]. destruct s; [discriminate | easy]. Qed.

Lemma string_eqb_eq (s t : jsstring) : string_eqb s t = true <-> s = t.
Proof. unfold string_eqb. apply bool_decide_eq_true. Qed.

Lemma string_eqb_neq (s t : jsstring) : string_eqb s t = false <-> s <> t.
Proof. unfold string_eqb. apply bool_decide_eq_false. Qed.

Lemma parseToken_empty w :
  outcome (JwtParserService.parseToken [] w)
  = Throw (InvalidTokenException Message.structure).
Proof. now rewrite parseToken_stages. Qed.

End AuthenticationOutcomes.

(** X11. [AuthGuard] reports each defect of the header with a message of
    its own, in this order: no header or an empty one; a header that
    does not start with [Bearer ] (capital B, one space); nothing but
    white space after the prefix. For any other header it fails exactly
    as the parser fails on the trimmed rest of the header: the parser's
    exception is thrown again as it is. *)
Theorem header_defects `{Runtime} context w :
  (headers (request w) ≫= authorization ∈ [None; Some []] ->
   outcome (AuthGuard.canActivate context w)
   = Throw (InvalidTokenException (js "Missing Authorization header")))
  /\ (forall authHeader,
        headers (request w) ≫= authorization = Some authHeader ->
        authHeader <> [] ->
        startsWith authHeader (js "Bearer ") = false ->
        outcome (AuthGuard.canActivate context w)
        = Throw (InvalidTokenException
                   (js "Authorization header must use Bearer scheme")))
  /\ (forall authHeader,
        headers (request w) ≫= authorization = Some authHeader ->
        startsWith authHeader (js "Bearer ") = true ->
        trim (substring authHeader 7) = [] ->
        outcome (AuthGuard.canActivate context w)
        = Throw (InvalidTokenException (js "Bearer token is empty")))
  /\ (forall authHeader e,
        headers (request w) ≫= authorization = Some authHeader ->
        startsWith authHeader (js "Bearer ") = true ->
        outcome (JwtParserService.parseToken
                   (trim (substring authHeader 7)) w) = Throw e ->
        trim (substring authHeader 7) <> [] ->
        outcome (AuthGuard.canActivate context w) = Throw e).
Proof.
  rewrite canActivate_outcome. split; [|split; [|split]].
  - intros Hin. apply list_elem_of_In in Hin.
    destruct Hin as [<-|[<-|[]]]; reflexivity.
  - intros authHeader -> Hne Hstart.
    rewrite (proj2 (string_eqb_neq _ _) Hne), Hstart. reflexivity.
  - intros authHeader -> Hstart Hempty.
    assert (Hne : authHeader <> [])
      by (apply (startsWith_nonempty _ _ Hstart); discriminate).
    rewrite (proj2 (string_eqb_neq _ _) Hne), Hstart, Hempty. reflexivity.
  - intros authHeader e -> Hstart Hparse Htoken.
    assert (Hne : authHeader <> [])
      by (apply (startsWith_nonempty _ _ Hstart); discriminate).
    rewrite (proj2 (string_eqb_neq _ _) Hne), Hstart.
    rewrite (proj2 (string_eqb_neq _ _) Htoken), Hparse. reflexivity.
Qed.

Lemma canActivate_accepts `{Runtime} context w :
  outcome (AuthGuard.canActivate context w) = Normal true
  <-> exists authHeader claims,
        headers (request w) ≫= authorization = Some authHeader
        /\ startsWith authHeader (js "Bearer ") = true
        /\ outcome (JwtParserService.parseToken
                      (trim (substring authHeader 7)) w) = Normal claims.
Proof.
  rewrite canActivate_outcome. split.
  - destruct (headers (request w) ≫= authorization) as [authHeader|];
      [|discriminate].
    destruct (string_eqb authHeader []); [discriminate|].
    destruct (startsWith authHeader (js "Bearer ")) eqn:Hstart; [|discriminate].
    cbn [negb]. destruct (string_eqb _ []); [discriminate|].
    destruct (outcome _) as [claims|e] eqn:Hparse; [|discriminate].
    intros _. now exists authHeader, claims.
  - intros (authHeader & claims & -> & Hstart & Hparse).
    assert (Hne : authHeader <> [])
      by (apply (startsWith_nonempty _ _ Hstart); discriminate).
    rewrite (proj2 (string_eqb_neq _ _) Hne), Hstart. cbn [negb].
    destruct (string_eqb (trim (substring authHeader 7)) []) eqn:Hempty.
    + apply string_eqb_eq in Hempty. rewrite Hempty, parseToken_empty in Hparse.
      discriminate.
    + now rewrite Hparse.
Qed.

(** X12. [AuthGuard] lets a request pass exactly when its header starts
    with [Bearer ] and the parser accepts the trimmed rest of it. *)
Theorem authenticated_iff `{Runtime} context w :
  outcome (AuthGuard.canActivate context w) = Normal true
  <-> exists authHeader claims,
        headers (request w) ≫= authorization = Some authHeader
        /\ startsWith authHeader (js "Bearer ") = true
        /\ outcome (JwtParserService.parseToken
                      (trim (substring authHeader 7)) w) = Normal claims.
Proof. apply canActivate_accepts. Qed.

Lemma canActivate_throws `{Runtime} context w e :
  outcome (AuthGuard.canActivate context w) = Throw e ->
  (exists message, e = InvalidTokenException message)
  \/ e = NativeError "RangeError".
Proof.
  rewrite canActivate_outcome.
  destruct (headers (request w) ≫= authorization) as [authHeader|];
    [|intros [= <-]; eauto].
  destruct (string_eqb authHeader []); [intros [= <-]; eauto|].
  destruct (negb _); [intros [= <-]; eauto|].
  destruct (string_eqb _ []); [intros [= <-]; eauto|].
  destruct (outcome _) as [claims|e'] eqn:Hparse; [discriminate|].
  intros [= <-]. now apply parseToken_throws in Hparse.
Qed.

Lemma canActivate_not_false `{Runtime} context w :
  outcome (AuthGuard.canActivate context w) <> Normal false.
Proof.
  rewrite canActivate_outcome.
  destruct (headers (request w) ≫= authorization) as [authHeader|];
    [|discriminate].
  destruct (string_eqb authHeader []); [discriminate|].
  destruct (negb _); [discriminate|].
  destruct (string_eqb _ []); [discriminate|].
  destruct (outcome _); discriminate.
Qed.

(** X13. A throw of [AuthGuard] is [InvalidTokenException], answered with
    status 401 and code [INVALID_TOKEN], or the RangeError of the parser;
    it is never the 403 exception. *)
Theorem authentication_failures `{Runtime} context w e :
  outcome (AuthGuard.canActivate context w) = Throw e ->
  ((exists message,
      e = InvalidTokenException message
      /\ getResponse e
         = Some {| statusCode := 401; error := js "INVALID_TOKEN";
                   message := message |})
   \/ e = NativeError "RangeError")
  /\ (forall message, e <> InsufficientPermissionsException message).
Proof.
  intros Hout.
  destruct (canActivate_throws _ _ _ Hout) as [[message ->] | ->].
  - split; [|discriminate]. left. exists message. split; reflexivity.
  - split; [|discriminate]. now right.
Qed.

(** X14. What [AuthGuard] attaches is what the accessors give back: after
    a call that returned, [getUserClaims] and [GetUserClaims] return the
    claims of the parser, the [User] decorator yields them whole, and
    for each property name it yields that property of them. *)
Theorem attached_claims_are_read `{Runtime} context context' w allowed :
  outcome (AuthGuard.canActivate context w) = Normal allowed ->
  let after := (AuthGuard.canActivate context w).1 in
  exists authHeader claims,
    headers (request w) ≫= authorization = Some authHeader
    /\ outcome (JwtParserService.parseToken
                  (trim (substring authHeader 7)) w) = Normal claims
    /\ UserClaimsService.getUserClaims (request after) = Some claims
    /\ GetUserClaims (request after) = Some claims
    /\ outcome (User None context' after) = Normal (PClaims claims)
    /\ outcome (User (Some key_sub) context' after) = Normal (PString (sub claims))
    /\ outcome (User (Some key_email) context' after)
       = Normal (PString (email claims))
    /\ outcome (User (Some key_roles) context' after)
       = Normal (PStrings (roles claims))
    /\ outcome (User (Some key_exp) context' after)
       = Normal (from_option PNumber PUndefined (exp claims))
    /\ outcome (User (Some key_iat) context' after)
       = Normal (from_option PNumber PUndefined (iat claims)).
Proof.
  intros Hout after.
  pose proof (canActivate_request context w) as Hreq. rewrite Hout in Hreq.
  destruct Hreq as (authHeader & claims & Hheader & Hparse & Hafter).
  fold after in Hafter. exists authHeader, claims.
  split; [exact Hheader|]. split; [exact Hparse|].
  unfold UserClaimsService.getUserClaims, GetUserClaims, User. run.
  rewrite Hafter. repeat split.
Qed.

(** X15. White space around the token does not matter: two requests
    that differ in the [Authorization] header only, both starting with
    [Bearer ] and with the same text once the prefix is removed and the
    rest trimmed, are answered alike and end with the same [user]. *)
Theorem token_is_trimmed `{Runtime} context w authHeader authHeader' :
  headers (request w) ≫= authorization = Some authHeader ->
  startsWith authHeader (js "Bearer ") = true ->
  startsWith authHeader' (js "Bearer ") = true ->
  trim (substring authHeader 7) = trim (substring authHeader' 7) ->
  let w' := {| request := {| headers := Some {| authorization := Some authHeader' |};
                             user := user (request w) |};
               clock := clock w;
               logged := logged w |} in
  outcome (AuthGuard.canActivate context w)
  = outcome (AuthGuard.canActivate context w')
  /\ user (request (AuthGuard.canActivate context w).1)
     = user (request (AuthGuard.canActivate context w').1).
Proof.
  intros Hheader Hstart Hstart' Htoken w'.
  assert (Hout : outcome (AuthGuard.canActivate context w)
                 = outcome (AuthGuard.canActivate context w')).
  { rewrite !canActivate_outcome, Hheader. cbn [request headers mbind option_bind authorization w'].
    assert (Hne : authHeader <> [])
      by (apply (startsWith_nonempty _ _ Hstart); discriminate).
    assert (Hne' : authHeader' <> [])
      by (apply (startsWith_nonempty _ _ Hstart'); discriminate).
    rewrite (proj2 (string_eqb_neq _ _) Hne), (proj2 (string_eqb_neq _ _) Hne').
    rewrite Hstart, Hstart', <- Htoken.
    now rewrite (parseToken_now _ w w' eq_refl). }
  split; [exact Hout|].
  pose proof (canActivate_request context w) as Hreq.
  pose proof (canActivate_request context w') as Hreq'.
  rewrite <- Hout in Hreq'.
  destruct (outcome (AuthGuard.canActivate context w)) as [allowed|e].
  - destruct Hreq as (h & claims & Hh & Hparse & ->).
    destruct Hreq' as (h' & claims' & Hh' & Hparse' & ->).
    cbn [user]. f_equal.
    rewrite Hheader in Hh. injection Hh as <-.
    cbn [request headers mbind option_bind authorization w'] in Hh'.
    injection Hh' as <-.
    rewrite <- Htoken, <- (parseToken_now _ w w' eq_refl), Hparse in Hparse'.
    now injection Hparse'.
  - now rewrite Hreq, Hreq'.
Qed.

Section AuthenticationExtrasWitness.
Import Reference.

Lemma header_defects_witness :
  outcome (AuthGuard.canActivate (Sample.route (fun m => m))
             (Sample.incoming (Some (js "bearer " ++ Sample.valid))))
  = Throw (InvalidTokenException
             (js "Authorization header must use Bearer scheme"))
  /\ outcome (AuthGuard.canActivate (Sample.route (fun m => m))
                (Sample.incoming (Some (js "Bearer " ++ Sample.garbled))))
     = Throw (InvalidTokenException (js "JWT payload is not valid JSON")).
Proof.
  pose proof (header_defects (Sample.route (fun m => m))
                (Sample.incoming (Some (js "bearer " ++ Sample.valid))))
    as (_ & Hscheme & _).
  pose proof (header_defects (Sample.route (fun m => m))
                (Sample.incoming (Some (js "Bearer " ++ Sample.garbled))))
    as (_ & _ & _ & Hparser).
  split.
  - apply (Hscheme (js "bearer " ++ Sample.valid)).
    + reflexivity.
    + discriminate.
    + vm_compute. reflexivity.
  - apply (Hparser (js "Bearer " ++ Sample.garbled)).
    + reflexivity.
    + vm_compute. reflexivity.
    + vm_compute. reflexivity.
    + vm_compute. discriminate.
Defined.

Lemma authentication_failures_witness :
  ((exists message,
      NativeError "RangeError" = InvalidTokenException message
      /\ getResponse (NativeError "RangeError")
         = Some {| statusCode := 401; error := js "INVALID_TOKEN";
                   message := message |})
   \/ NativeError "RangeError" = NativeError "RangeError")
  /\ (forall message,
        NativeError "RangeError" <> InsufficientPermissionsException message).
Proof.
  apply (authentication_failures (Sample.route (fun m => m))
           (Sample.incoming (Some (js "Bearer " ++ Sample.ancient)))).
  vm_compute. reflexivity.
Defined.

Lemma attached_claims_are_read_witness :
  exists authHeader claims,
    headers (request (Sample.incoming (Some (js "Bearer " ++ Sample.valid))))
      ≫= authorization = Some authHeader
    /\ outcome (JwtParserService.parseToken (trim (substring authHeader 7))
                  (Sample.incoming (Some (js "Bearer " ++ Sample.valid))))
       = Normal claims
    /\ UserClaimsService.getUserClaims
         (request (AuthGuard.canActivate
                     (ExampleController.metadata ExampleController.getEmail)
                     (Sample.incoming (Some (js "Bearer " ++ Sample.valid)))).1)
       = Some claims
    /\ GetUserClaims
         (request (AuthGuard.canActivate
                     (ExampleController.metadata ExampleController.getEmail)
                     (Sample.incoming (Some (js "Bearer " ++ Sample.valid)))).1)
       = Some claims
    /\ outcome (User None (ExampleController.metadata ExampleController.getEmail)
                  (AuthGuard.canActivate
                     (ExampleController.metadata ExampleController.getEmail)
                     (Sample.incoming (Some (js "Bearer " ++ Sample.valid)))).1)
       = Normal (PClaims claims)
    /\ outcome (User (Some key_sub)
                  (ExampleController.metadata ExampleController.getEmail)
                  (AuthGuard.canActivate
                     (ExampleController.metadata ExampleController.getEmail)
                     (Sample.incoming (Some (js "Bearer " ++ Sample.valid)))).1)
       = Normal (PString (sub claims))
    /\ outcome (User (ExampleController.userParam ExampleController.getEmail)
                  (ExampleController.metadata ExampleController.getEmail)
                  (AuthGuard.canActivate
                     (ExampleController.metadata ExampleController.getEmail)
                     (Sample.incoming (Some (js "Bearer " ++ Sample.valid)))).1)
       = Normal (PString (email claims))
    /\ outcome (User (ExampleController.userParam ExampleController.getRoles)
                  (ExampleController.metadata ExampleController.getEmail)
                  (AuthGuard.canActivate
                     (ExampleController.metadata ExampleController.getEmail)
                     (Sample.incoming (Some (js "Bearer " ++ Sample.valid)))).1)
       = Normal (PStrings (roles claims))
    /\ outcome (User (Some key_exp)
                  (ExampleController.metadata ExampleController.getEmail)
                  (AuthGuard.canActivate
                     (ExampleController.metadata ExampleController.getEmail)
                     (Sample.incoming (Some (js "Bearer " ++ Sample.valid)))).1)
       = Normal (from_option PNumber PUndefined (exp claims))
    /\ outcome (User (Some key_iat)
                  (ExampleController.metadata ExampleController.getEmail)
                  (AuthGuard.canActivate
                     (ExampleController.metadata ExampleController.getEmail)
                     (Sample.incoming (Some (js "Bearer " ++ Sample.valid)))).1)
       = Normal (from_option PNumber PUndefined (iat claims)).
Proof.
  apply (attached_claims_are_read
           (ExampleController.metadata ExampleController.getEmail)
           (ExampleController.metadata ExampleController.getEmail)
           (Sample.incoming (Some (js "Bearer " ++ Sample.valid))) true).
  vm_compute. reflexivity.
Defined.

Lemma token_is_trimmed_witness :
  outcome (AuthGuard.canActivate (Sample.route (fun m => m))
             (Sample.incoming (Some (js "Bearer " ++ Sample.valid))))
  = outcome (AuthGuard.canActivate (Sample.route (fun m => m))
               (Sample.incoming
                  (Some (js "Bearer   " ++ Sample.valid ++ js "  "))))
  /\ user (request (AuthGuard.canActivate (Sample.route (fun m => m))
                      (Sample.incoming (Some (js "Bearer " ++ Sample.valid)))).1)
     = user (request (AuthGuard.canActivate (Sample.route (fun m => m))
                        (Sample.incoming
                           (Some (js "Bearer   " ++ Sample.valid ++ js "  ")))).1).
Proof.
  apply (token_is_trimmed (Sample.route (fun m => m))
           (Sample.incoming (Some (js "Bearer " ++ Sample.valid)))
           (js "Bearer " ++ Sample.valid)
           (js "Bearer   " ++ Sample.valid ++ js "  ")).
  - reflexivity.
  - vm_compute. reflexivity.
  - vm_compute. reflexivity.
  - vm_compute. reflexivity.
Defined.

End AuthenticationExtrasWitness.

(** ** More about the role guards *)

Section RoleGuards.

Lemma RequireRolesGuard_outcome context w :
  outcome (RequireRolesGuard.canActivate context w)
  = match Reflector.getAllAndOverride ROLES_KEY
            [getHandler context; getClass context] with
    | None => Normal true
    | Some required =>
        if length required =? 0 then Normal true
        else match user (request w) with
             | None =>
                 Throw (InsufficientPermissionsException Message.not_authenticated)
             | Some claims =>
                 if some required (fun role => includes (roles claims) role)
                 then Normal true
                 else Throw (InsufficientPermissionsException
                               (Message.lacks_any required))
             end
    end.
Proof.
  unfold RequireRolesGuard.canActivate.
  destruct (Reflector.getAllAndOverride _ _) as [required|]; [|reflexivity].
  destruct (length required =? 0); [reflexivity|]. run.
  destruct (user (request w)) as [claims|]; [|reflexivity].
  destruct (some required _); reflexivity.
Qed.

Lemma RequireAllRolesGuard_outcome context w :
  outcome (RequireAllRolesGuard.canActivate context w)
  = match Reflector.getAllAndOverride ALL_ROLES_KEY
            [getHandler context; getClass context] with
    | None => Normal true
    | Some required =>
        if length required =? 0 then Normal true
        else match user (request w) with
             | None =>
                 Throw (InsufficientPermissionsException Message.not_authenticated)
             | Some claims =>
                 match filter required
                         (fun role => negb (includes (roles claims) role)) with
                 | [] => Normal true
                 | missing =>
                     Throw (InsufficientPermissionsException
                              (Message.lacks_all missing))
                 end
             end
    end.
Proof.
  unfold RequireAllRolesGuard.canActivate.
  destruct (Reflector.getAllAndOverride _ _) as [required|]; [|reflexivity].
  destruct (length required =? 0); [reflexivity|]. run.
  destruct (user (request w)) as [claims|]; [|reflexivity].
  destruct (filter required _); reflexivity.
Qed.

Lemma getAllAndOverride_other key key' value handler class :
  key <> key' ->
  Reflector.getAllAndOverride key [SetMetadata key' value handler; class]
  = Reflector.getAllAndOverride key [handler; class].
Proof.
  intros Hne. unfold SetMetadata. cbn [Reflector.getAllAndOverride].
  rewrite lookup_insert_ne by congruence. reflexivity.
Qed.

Lemma filter_all_some (required held : list jsstring) :
  required <> [] ->
  filter required (fun role => negb (includes held role)) = [] ->
  some required (fun role => includes held role) = true.
Proof.
  destruct required as [|role required]; [easy|]. intros _.
  unfold filter, some. cbn [List.filter existsb].
  destruct (includes held role); [reflexivity | discriminate].
Qed.

Lemma includes_subseteq (held held' : list jsstring) role :
  held ⊆ held' -> includes held role = true -> includes held' role = true.
Proof.
  intros Hsub Hinc. apply includes_elem_of. apply Hsub.
  now apply includes_elem_of.
Qed.

End RoleGuards.

(** X16. The role guards only write to the log: a call leaves the
    request (its [user] too) and the clock as they were, keeps the lines
    already logged, and adds at most one line. *)
Theorem role_guards_only_log context w :
  (exists events,
     (RequireRolesGuard.canActivate context w).1
     = {| request := request w; clock := clock w;
          logged := logged w ++ events |}
     /\ length events <= 1)
  /\ (exists events,
        (RequireAllRolesGuard.canActivate context w).1
        = {| request := request w; clock := clock w;
             logged := logged w ++ events |}
        /\ length events <= 1).
Proof.
  unfold RequireRolesGuard.canActivate, RequireAllRolesGuard.canActivate.
  split.
  - destruct (Reflector.getAllAndOverride ROLES_KEY _) as [required|];
      [|exists []; rewrite app_nil_r; destruct w; split; [reflexivity | cbn; lia]].
    destruct (length required =? 0); run;
      [eexists [_]; split; [reflexivity | cbn; lia]|].
    destruct (user (request w)) as [identity|];
      [|eexists [_]; split; [reflexivity | cbn; lia]].
    destruct (some required _); cbn [negb];
      eexists [_]; split; first [reflexivity | cbn; lia].
  - destruct (Reflector.getAllAndOverride ALL_ROLES_KEY _) as [required|];
      [|exists []; rewrite app_nil_r; destruct w; split; [reflexivity | cbn; lia]].
    destruct (length required =? 0); run;
      [eexists [_]; split; [reflexivity | cbn; lia]|].
    destruct (user (request w)) as [identity|];
      [|eexists [_]; split; [reflexivity | cbn; lia]].
    destruct (0 <? length (filter required _));
      eexists [_]; split; first [reflexivity | cbn; lia].
Qed.

(** X17. A throw of a role guard is [InsufficientPermissionsException],
    answered with status 403 and code [INSUFFICIENT_PERMISSIONS]; a role
    guard never returns [false]. *)
Theorem role_guards_failures context w :
  (forall e,
     outcome (RequireRolesGuard.canActivate context w) = Throw e
     \/ outcome (RequireAllRolesGuard.canActivate context w) = Throw e ->
     exists message,
       e = InsufficientPermissionsException message
       /\ getResponse e
          = Some {| statusCode := 403; error := js "INSUFFICIENT_PERMISSIONS";
                    message := message |})
  /\ outcome (RequireRolesGuard.canActivate context w) <> Normal false
  /\ outcome (RequireAllRolesGuard.canActivate context w) <> Normal false.
Proof.
  rewrite RequireRolesGuard_outcome, RequireAllRolesGuard_outcome.
  split; [intros e [Hout|Hout]; revert Hout | split];
    repeat match goal with
           | |- context [match ?c with Some _ => _ | None => _ end] => destruct c
           | |- context [if ?c then _ else _] => destruct c
           | |- context [match ?c with [] => _ | _ :: _ => _ end] => destruct c
           end;
    try discriminate; intros [= <-]; eexists; split; reflexivity.
Qed.

(** X18. Each guard reads the key of its own decorator only: [Roles] on
    a handler changes nothing for [RequireAllRolesGuard], and
    [RequireAllRoles] changes nothing for [RequireRolesGuard]. A route
    decorated with [Roles] alone is open to every caller of
    [RequireAllRolesGuard]. *)
Theorem decorators_are_kept_apart roles handler class w :
  RequireAllRolesGuard.canActivate
    {| getHandler := Roles roles handler; getClass := class |} w
  = RequireAllRolesGuard.canActivate
      {| getHandler := handler; getClass := class |} w
  /\ RequireRolesGuard.canActivate
       {| getHandler := RequireAllRoles roles handler; getClass := class |} w
     = RequireRolesGuard.canActivate
         {| getHandler := handler; getClass := class |} w
  /\ RequireAllRolesGuard.canActivate (Sample.route (Roles roles)) w
     = (w, Normal true)
  /\ RequireRolesGuard.canActivate (Sample.route (RequireAllRoles roles)) w
     = (w, Normal true).
Proof.
  unfold RequireAllRolesGuard.canActivate, RequireRolesGuard.canActivate,
    Sample.route, Roles, RequireAllRoles.
  cbn [getHandler getClass].
  rewrite !getAllAndOverride_other by discriminate.
  repeat split.
Qed.

(** X19. The requirement of the handler goes before that of the class:
    when the handler carries the guard's decorator, what the class
    carries is not looked at; when it does not, the requirement of the
    class applies. *)
Theorem handler_overrides_class roles handler class class' w :
  RequireRolesGuard.canActivate
    {| getHandler := Roles roles handler; getClass := class |} w
  = RequireRolesGuard.canActivate
      {| getHandler := Roles roles handler; getClass := class' |} w
  /\ RequireAllRolesGuard.canActivate
       {| getHandler := RequireAllRoles roles handler; getClass := class |} w
     = RequireAllRolesGuard.canActivate
         {| getHandler := RequireAllRoles roles handler; getClass := class' |} w
  /\ (handler !! ROLES_KEY = None ->
      RequireRolesGuard.canActivate
        {| getHandler := handler; getClass := Roles roles class |} w
      = RequireRolesGuard.canActivate
          {| getHandler := Roles roles handler; getClass := class' |} w)
  /\ (handler !! ALL_ROLES_KEY = None ->
      RequireAllRolesGuard.canActivate
        {| getHandler := handler; getClass := RequireAllRoles roles class |} w
      = RequireAllRolesGuard.canActivate
          {| getHandler := RequireAllRoles roles handler; getClass := class' |} w).
Proof.
  unfold RequireAllRolesGuard.canActivate, RequireRolesGuard.canActivate,
    Roles, RequireAllRoles, SetMetadata.
  cbn [getHandler getClass Reflector.getAllAndOverride].
  rewrite !lookup_insert_eq.
  repeat split; intros ->; reflexivity.
Qed.

(** X20. With the same requirement, whoever passes the all-of guard
    passes the any-of guard; when the requirement is one role, the two
    guards allow the same callers. *)
Theorem all_of_implies_any_of context context' w required :
  Reflector.getAllAndOverride ROLES_KEY [getHandler context; getClass context]
    = Some required ->
  Reflector.getAllAndOverride ALL_ROLES_KEY
    [getHandler context'; getClass context'] = Some required ->
  (outcome (RequireAllRolesGuard.canActivate context' w) = Normal true ->
   outcome (RequireRolesGuard.canActivate context w) = Normal true)
  /\ (length required = 1 ->
      outcome (RequireRolesGuard.canActivate context w) = Normal true ->
      outcome (RequireAllRolesGuard.canActivate context' w) = Normal true).
Proof.
  intros Hany Hall.
  rewrite RequireRolesGuard_outcome, RequireAllRolesGuard_outcome, Hany, Hall.
  destruct (length required =? 0) eqn:Hlen; [easy|].
  apply length_zero in Hlen.
  destruct (user (request w)) as [identity|]; [|easy].
  split.
  - destruct (filter required _) eqn:Hmissing; [|discriminate]. intros _.
    now rewrite (filter_all_some _ _ Hlen Hmissing).
  - destruct required as [|role [|role' required]]; try discriminate.
    intros _. unfold some, filter. cbn [existsb List.filter orb].
    rewrite orb_false_r. destruct (includes _ role); cbn [negb]; easy.
Qed.

(** X21. More roles never hurt: a caller allowed by a role guard is
    still allowed when the roles of the user are a larger set; order and
    repetition in the roles of the user do not matter. *)
Theorem more_roles_never_hurt context w w' identity identity' :
  user (request w) = Some identity ->
  user (request w') = Some identity' ->
  roles identity ⊆ roles identity' ->
  (outcome (RequireRolesGuard.canActivate context w) = Normal true ->
   outcome (RequireRolesGuard.canActivate context w') = Normal true)
  /\ (outcome (RequireAllRolesGuard.canActivate context w) = Normal true ->
      outcome (RequireAllRolesGuard.canActivate context w') = Normal true).
Proof.
  intros Huser Huser' Hsub.
  rewrite !RequireRolesGuard_outcome, !RequireAllRolesGuard_outcome,
    Huser, Huser'.
  split.
  - destruct (Reflector.getAllAndOverride ROLES_KEY _) as [required|]; [|easy].
    destruct (length required =? 0); [easy|].
    destruct (some required (fun role => includes (roles identity) role))
      eqn:Hsome; [|discriminate].
    intros _. apply some_includes in Hsome as (role & Hin & Hheld).
    assert (Hsome' : some required (fun role => includes (roles identity') role)
                     = true)
      by (apply some_includes; exists role; split; [assumption | now apply Hsub]).
    now rewrite Hsome'.
  - destruct (Reflector.getAllAndOverride ALL_ROLES_KEY _) as [required|]; [|easy].
    destruct (length required =? 0); [easy|].
    rewrite !missing_filter.
    destruct (base.filter (fun role => role ∉ roles identity) required)
      eqn:Hmissing; [|discriminate].
    intros _.
    assert (Hmissing' : base.filter (fun role => role ∉ roles identity') required
                        = []).
    { apply missing_nil. intros role Hin. apply Hsub.
      revert role Hin. now apply missing_nil. }
    now rewrite Hmissing'.
Qed.

Section RoleGuardsWitness.

Lemma role_guards_failures_witness :
  exists message,
    InsufficientPermissionsException Message.not_authenticated
    = InsufficientPermissionsException message
    /\ getResponse (InsufficientPermissionsException Message.not_authenticated)
       = Some {| statusCode := 403; error := js "INSUFFICIENT_PERMISSIONS";
                 message := message |}.
Proof.
  pose proof (role_guards_failures (Sample.route (Roles [js "admin"]))
                Sample.anonymous) as [Hthrow _].
  apply Hthrow. left. vm_compute. reflexivity.
Defined.

Lemma handler_overrides_class_witness :
  RequireRolesGuard.canActivate
    {| getHandler := ∅; getClass := Roles [js "admin"] ∅ |}
    (Sample.authenticated (Sample.with_roles [js "user"]))
  = RequireRolesGuard.canActivate
      {| getHandler := Roles [js "admin"] ∅; getClass := ∅ |}
      (Sample.authenticated (Sample.with_roles [js "user"])).
Proof.
  pose proof (handler_overrides_class [js "admin"] ∅ ∅ ∅
                (Sample.authenticated (Sample.with_roles [js "user"])))
    as (_ & _ & Hclass & _).
  apply Hclass. reflexivity.
Defined.

Lemma all_of_implies_any_of_witness :
  outcome (RequireRolesGuard.canActivate
             (Sample.route (Roles [js "admin"; js "user"]))
             (Sample.authenticated (Sample.with_roles [js "user"; js "admin"])))
  = Normal true.
Proof.
  pose proof (all_of_implies_any_of
                (Sample.route (Roles [js "admin"; js "user"]))
                (Sample.route (RequireAllRoles [js "admin"; js "user"]))
                (Sample.authenticated (Sample.with_roles [js "user"; js "admin"]))
                [js "admin"; js "user"] eq_refl eq_refl) as [Himp _].
  apply Himp. vm_compute. reflexivity.
Defined.

Lemma more_roles_never_hurt_witness :
  outcome (RequireAllRolesGuard.canActivate
             (Sample.route (RequireAllRoles [js "admin"; js "user"]))
             (Sample.authenticated
                (Sample.with_roles [js "user"; js "guest"; js "admin"; js "user"])))
  = Normal true.
Proof.
  pose proof (more_roles_never_hurt
                (Sample.route (RequireAllRoles [js "admin"; js "user"]))
                (Sample.authenticated (Sample.with_roles [js "admin"; js "user"]))
                (Sample.authenticated
                   (Sample.with_roles [js "user"; js "guest"; js "admin"; js "user"]))
                _ _ eq_refl eq_refl) as Hmore.
  cbn [roles Sample.with_roles] in Hmore.
  assert (Hsub : [js "admin"; js "user"]
                 ⊆ [js "user"; js "guest"; js "admin"; js "user"]).
  { intros role Hin. apply list_elem_of_In in Hin. apply list_elem_of_In.
    cbn in *. tauto. }
  apply (proj2 (Hmore Hsub)). vm_compute. reflexivity.
Defined.

End RoleGuardsWitness.

(** ** Guards in sequence *)

Section Pipeline.
Context `{Runtime}.

Lemma tryActivate_pair (first second : ExecutionContext -> M bool) context w :
  outcome (GuardsConsumer.tryActivate [first; second] context w)
  = match outcome (first context w) with
    | Normal true => outcome (second context (first context w).1)
    | Normal false => Normal false
    | Throw e => Throw e
    end.
Proof.
  cbn [GuardsConsumer.tryActivate]. run.
  destruct (first context w) as [w1 [[|]|e]]; try reflexivity.
  destruct (second context w1) as [w2 [[|]|e]]; reflexivity.
Qed.

Lemma lacks_any_not_authenticated required :
  Message.lacks_any required <> Message.not_authenticated.
Proof. vm_compute. discriminate. Qed.

Lemma lacks_all_not_authenticated missing :
  Message.lacks_all missing <> Message.not_authenticated.
Proof. vm_compute. discriminate. Qed.

End Pipeline.

(** X22. Behind [AuthGuard] a role guard always finds a user: a route
    guarded by [AuthGuard] and then a role guard never fails with the
    message that the user must be authenticated, and never answers
    [false]. *)
Theorem authentication_precedes_roles `{Runtime} context w :
  (forall e,
     outcome (GuardsConsumer.tryActivate
                [AuthGuard.canActivate; RequireRolesGuard.canActivate] context w)
       = Throw e
     \/ outcome (GuardsConsumer.tryActivate
                   [AuthGuard.canActivate; RequireAllRolesGuard.canActivate]
                   context w) = Throw e ->
     e <> InsufficientPermissionsException Message.not_authenticated)
  /\ outcome (GuardsConsumer.tryActivate
                [AuthGuard.canActivate; RequireRolesGuard.canActivate] context w)
     <> Normal false
  /\ outcome (GuardsConsumer.tryActivate
                [AuthGuard.canActivate; RequireAllRolesGuard.canActivate]
                context w) <> Normal false.
Proof.
  rewrite !tryActivate_pair.
  pose proof (canActivate_request context w) as Hreq.
  pose proof (canActivate_not_false context w) as Htrue.
  pose proof (canActivate_throws context w) as Hkind.
  rewrite RequireRolesGuard_outcome, RequireAllRolesGuard_outcome.
  destruct (outcome (AuthGuard.canActivate context w)) as [[|]|e'].
  - destruct Hreq as (authHeader & claims & _ & _ & ->). cbn [user].
    split; [intros e [Hthrow|Hthrow]; revert Hthrow | split];
      repeat match goal with
             | |- context [match ?c with Some _ => _ | None => _ end] => destruct c
             | |- context [if ?c then _ else _] => destruct c
             | |- context [match ?c with [] => _ | _ :: _ => _ end] => destruct c
             end;
      try discriminate; intros [= <-] [= Hmessage]; revert Hmessage;
      first [apply lacks_any_not_authenticated
            | apply lacks_all_not_authenticated].
  - now contradiction Htrue.
  - split; [|split; discriminate].
    intros e [[= <-]|[= <-]];
      destruct (Hkind e' eq_refl) as [[message ->] | ->]; discriminate.
Qed.

(** X23. A route guarded by [AuthGuard] and then [RequireRolesGuard],
    with a non-empty requirement, is reached exactly when the header
    starts with [Bearer ], the parser accepts the trimmed rest of it,
    and the claims it returns hold one of the required roles. *)
Theorem any_of_route `{Runtime} context w required :
  Reflector.getAllAndOverride ROLES_KEY [getHandler context; getClass context]
    = Some required ->
  required <> [] ->
  outcome (GuardsConsumer.tryActivate
             [AuthGuard.canActivate; RequireRolesGuard.canActivate] context w)
    = Normal true
  <-> exists authHeader claims,
        headers (request w) ≫= authorization = Some authHeader
        /\ startsWith authHeader (js "Bearer ") = true
        /\ outcome (JwtParserService.parseToken
                      (trim (substring authHeader 7)) w) = Normal claims
        /\ exists role, role ∈ required /\ role ∈ roles claims.
Proof.
  intros Hmeta Hne. rewrite tryActivate_pair.
  pose proof (canActivate_request context w) as Hreq.
  pose proof (canActivate_accepts context w) as Hacc.
  destruct (outcome (AuthGuard.canActivate context w)) as [[|]|e].
  - destruct Hreq as (authHeader & claims & Hheader & Hparse & Hafter).
    rewrite RequireRolesGuard_outcome, Hmeta, (proj2 (length_zero _) Hne), Hafter.
    cbn [user]. split.
    + destruct (some required _) eqn:Hsome; [|discriminate]. intros _.
      destruct (proj1 Hacc eq_refl) as (h & c & Hh & Hstart & _).
      rewrite Hheader in Hh. injection Hh as <-.
      exists authHeader, claims. repeat split; try assumption.
      now apply some_includes.
    + intros (h & c & Hh & _ & Hp & Hrole).
      rewrite Hheader in Hh. injection Hh as <-.
      rewrite Hparse in Hp. injection Hp as <-.
      apply some_includes in Hrole. now rewrite Hrole.
  - split; [discriminate|].
    intros (h & c & Hh & Hstart & Hp & _). apply Hacc. eauto.
  - split; [discriminate|].
    intros (h & c & Hh & Hstart & Hp & _).
    assert (Hno : @Throw bool e = Normal true) by (apply Hacc; eauto).
    discriminate.
Qed.

(** X24. A route guarded by [AuthGuard] and then [RequireAllRolesGuard],
    with a non-empty requirement, is reached exactly when the header
    starts with [Bearer ], the parser accepts the trimmed rest of it,
    and the claims it returns hold every required role. *)
Theorem all_of_route `{Runtime} context w required :
  Reflector.getAllAndOverride ALL_ROLES_KEY
    [getHandler context; getClass context] = Some required ->
  required <> [] ->
  outcome (GuardsConsumer.tryActivate
             [AuthGuard.canActivate; RequireAllRolesGuard.canActivate] context w)
    = Normal true
  <-> exists authHeader claims,
        headers (request w) ≫= authorization = Some authHeader
        /\ startsWith authHeader (js "Bearer ") = true
        /\ outcome (JwtParserService.parseToken
                      (trim (substring authHeader 7)) w) = Normal claims
        /\ forall role, role ∈ required -> role ∈ roles claims.
Proof.
  intros Hmeta Hne. rewrite tryActivate_pair.
  pose proof (canActivate_request context w) as Hreq.
  pose proof (canActivate_accepts context w) as Hacc.
  destruct (outcome (AuthGuard.canActivate context w)) as [[|]|e].
  - destruct Hreq as (authHeader & claims & Hheader & Hparse & Hafter).
    rewrite RequireAllRolesGuard_outcome, Hmeta, (proj2 (length_zero _) Hne),
      Hafter.
    cbn [user]. rewrite missing_filter. split.
    + destruct (base.filter _ required) eqn:Hmissing; [|discriminate]. intros _.
      destruct (proj1 Hacc eq_refl) as (h & c & Hh & Hstart & _).
      rewrite Hheader in Hh. injection Hh as <-.
      exists authHeader, claims. repeat split; try assumption.
      now apply missing_nil.
    + intros (h & c & Hh & _ & Hp & Hroles).
      rewrite Hheader in Hh. injection Hh as <-.
      rewrite Hparse in Hp. injection Hp as <-.
      apply missing_nil in Hroles. now rewrite Hroles.
  - split; [discriminate|].
    intros (h & c & Hh & Hstart & Hp & _). apply Hacc. eauto.
  - split; [discriminate|].
    intros (h & c & Hh & Hstart & Hp & _).
    assert (Hno : @Throw bool e = Normal true) by (apply Hacc; eauto).
    discriminate.
Qed.

(** X25. The order of the guards matters: with [RequireRolesGuard]
    placed before [AuthGuard], a request that carries no [user] yet is refused
    with the 403 exception whenever the requirement is not empty,
    whatever its header says, and its [user] stays unset. *)
Theorem roles_before_authentication `{Runtime} context w required :
  Reflector.getAllAndOverride ROLES_KEY [getHandler context; getClass context]
    = Some required ->
  required <> [] ->
  user (request w) = None ->
  outcome (GuardsConsumer.tryActivate
             [RequireRolesGuard.canActivate; AuthGuard.canActivate] context w)
  = Throw (InsufficientPermissionsException Message.not_authenticated)
  /\ user (request (GuardsConsumer.tryActivate
                      [RequireRolesGuard.canActivate; AuthGuard.canActivate]
                      context w).1) = None.
Proof.
  intros Hmeta Hne Huser. apply length_zero in Hne.
  cbn [GuardsConsumer.tryActivate]. unfold RequireRolesGuard.canActivate.
  rewrite Hmeta, Hne. run. rewrite Huser. split; [reflexivity | exact Huser].
Qed.

Section PipelineWitness.
Import Reference.

Lemma authentication_precedes_roles_witness :
  InsufficientPermissionsException
    (Message.lacks_any [js "admin"; js "moderator"])
  <> InsufficientPermissionsException Message.not_authenticated.
Proof.
  pose proof (authentication_precedes_roles
                (ExampleController.metadata ExampleController.getAdminDashboard)
                (Sample.incoming (Some (js "Bearer " ++ Sample.without_roles))))
    as [Hthrow _].
  apply Hthrow. left. vm_compute. reflexivity.
Defined.

Lemma any_of_route_witness :
  outcome (GuardsConsumer.tryActivate
             (ExampleController.useGuards ExampleController.getAdminDashboard)
             (ExampleController.metadata ExampleController.getAdminDashboard)
             (Sample.incoming (Some (js "Bearer " ++ Sample.valid))))
  = Normal true.
Proof.
  apply (any_of_route
           (ExampleController.metadata ExampleController.getAdminDashboard)
           (Sample.incoming (Some (js "Bearer " ++ Sample.valid)))
           [js "admin"; js "moderator"]).
  - reflexivity.
  - discriminate.
  - exists (js "Bearer " ++ Sample.valid), Sample.user123.
    split; [reflexivity|]. split; [vm_compute; reflexivity|].
    split; [vm_compute; reflexivity|].
    exists (js "admin"). split; left.
Defined.

Lemma all_of_route_witness :
  exists authHeader claims,
    headers (request (Sample.incoming (Some (js "Bearer " ++ Sample.valid))))
      ≫= authorization = Some authHeader
    /\ startsWith authHeader (js "Bearer ") = true
    /\ outcome (JwtParserService.parseToken (trim (substring authHeader 7))
                  (Sample.incoming (Some (js "Bearer " ++ Sample.valid))))
       = Normal claims
    /\ forall role, role ∈ [js "admin"; js "user"] -> role ∈ roles claims.
Proof.
  apply (all_of_route
           (Sample.route (RequireAllRoles [js "admin"; js "user"]))
           (Sample.incoming (Some (js "Bearer " ++ Sample.valid)))
           [js "admin"; js "user"]).
  - reflexivity.
  - discriminate.
  - vm_compute. reflexivity.
Defined.

Lemma roles_before_authentication_witness :
  outcome (GuardsConsumer.tryActivate
             [RequireRolesGuard.canActivate; AuthGuard.canActivate]
             (ExampleController.metadata ExampleController.getAdminDashboard)
             (Sample.incoming (Some (js "Bearer " ++ Sample.valid))))
  = Throw (InsufficientPermissionsException Message.not_authenticated)
  /\ user (request (GuardsConsumer.tryActivate
                      [RequireRolesGuard.canActivate; AuthGuard.canActivate]
                      (ExampleController.metadata
                         ExampleController.getAdminDashboard)
                      (Sample.incoming (Some (js "Bearer " ++ Sample.valid)))).1)
     = None.
Proof.
  apply (roles_before_authentication
           (ExampleController.metadata ExampleController.getAdminDashboard)
           (Sample.incoming (Some (js "Bearer " ++ Sample.valid)))
           [js "admin"; js "moderator"]).
  - reflexivity.
  - discriminate.
  - reflexivity.
Defined.

End PipelineWitness.

(** ** The warning about the expiry *)

(** Case analysis that keeps what each test answered. *)
Ltac branches :=
  repeat first
    [ progress tidy
    | progress cbn [isUndefined negb andb orb]
    | match goal with
      | |- context [isUndefined ?v] => destruct v eqn:?
      | |- context [andb ?a ?b] => destruct a eqn:?
      | |- context [orb ?a ?b] => destruct a eqn:?
      | |- context [if ?c then _ else _] => destruct c eqn:?
      | |- context [match ?c with Some _ => _ | None => _ end] => destruct c eqn:?
      end ].

(** X26. An expired token is accepted with a warning: when the parser
    returns, the events it wrote hold the warning that the token is
    expired exactly when [exp] of the claims is a number below the
    current time in whole seconds. *)
Theorem expiry_warning `{Runtime} token w :
  match JwtParserService.parseToken token w with
  | (w', Normal claims) =>
      exists events,
        logged w' = logged w ++ events
        /\ ({| level := WARN; context := "JwtParserService";
               text := js "Token is expired but accepted in mock mode" |}
            ∈ events
            <-> exists q, exp claims = Some q /\ lt q (inject_Z (now w)) = true)
  | _ => True
  end.
Proof.
  unfold JwtParserService.parseToken, JwtParserService.logger, now. run.
  branches; try exact I.
  all: eexists; (split; [rewrite <- ?app_assoc; reflexivity|]).
  all: cbn [exp].
  all: split;
    [ intros Hin; apply list_elem_of_In in Hin; vm_compute in Hin;
      first [ eexists; split; [reflexivity | assumption]
            | exfalso; intuition discriminate ]
    | intros (q & Hq & Hlt);
      first [ cbn [app]; solve [repeat first [left | right]]
            | discriminate Hq
            | apply (inj Some) in Hq; rewrite <- Hq in Hlt; congruence
            | match goal with
              | Hc : (typeof None =? _)%string = true |- _ =>
                  vm_compute in Hc; discriminate Hc
              end ] ].
Qed.

(** ** Invalid base64 *)

Section InvalidBase64.
Import Reference.

Lemma decoders_never_throw payload : isSome (decodePayload payload) = true.
Proof. reflexivity. Qed.

(** C9. The payload takes the path the claim describes, but the decoding
    step cannot fail: [Buffer.from(_, 'base64')] and [toString('utf-8')]
    never throw, so the [catch] of [parseToken] is never entered and no
    token is refused for its encoding. The payload segment [!] is padded
    to [!===] and decoded to no bytes at all, and the token is refused
    as invalid JSON; a good payload segment with [!] before it is
    decoded as if the [!] were not there, and the token is accepted. *)
Theorem invalid_base64_not_reported :
  split Sample.garbled (chr ".") = [js Sample.header; js "!"; js Sample.signature]
  /\ standardBase64 (js "!") = js "!==="
  /\ Buffer_from_base64 (js "!===") = Some []
  /\ outcome (JwtParserService.parseToken Sample.garbled Sample.anonymous)
     = Throw (InvalidTokenException (js "JWT payload is not valid JSON"))
  /\ outcome (JwtParserService.parseToken Sample.tainted Sample.anonymous)
     = Normal (Sample.with_roles [])
  /\ (forall token w,
        outcome (JwtParserService.parseToken token w)
        <> Throw (InvalidTokenException
                    (js "JWT payload is not valid base64url encoding"))).
Proof.
  split; [reflexivity|]. split; [reflexivity|]. split; [reflexivity|].
  split; [vm_compute; reflexivity|]. split; [vm_compute; reflexivity|].
  intros token w.
  change (js "JWT payload is not valid base64url encoding") with Message.encoding.
  assert (H1 : Message.structure <> Message.encoding) by (vm_compute; discriminate).
  assert (H2 : Message.not_json <> Message.encoding) by (vm_compute; discriminate).
  assert (H3 : Message.not_object <> Message.encoding) by (vm_compute; discriminate).
  assert (H4 : Message.missing_sub <> Message.encoding) by (vm_compute; discriminate).
  assert (H5 : Message.missing_email <> Message.encoding)
    by (vm_compute; discriminate).
  rewrite parseToken_stages.
  destruct (split token (chr ".")) as [|header [|payload [|signature [|extra rest]]]];
    try congruence.
  pose proof (decoders_never_throw payload) as Hsome.
  destruct (decodePayload payload) as [text|]; [|discriminate Hsome].
  destruct (JSON_parse text) as [v|]; [|congruence].
  intros Hout. apply parsedOutcome_messages in Hout.
  destruct Hout as [Hm | [Hm | [Hm | Hm]]]; congruence.
Qed.

End InvalidBase64.
